(** * Home NOC: the Target Manager page script and the ICMP statistics aggregator

    The first part embeds [core/target-manager/static/app.js]: JavaScript
    strings and primitive values, the page (form, status line, table) as a
    record, and every event handler as a state transformer, one per
    run-to-completion turn of the event loop.  The second part models the
    statistics aggregator of the ICMP prober.  Theorems follow the
    definitions. *)

From Stdlib Require Import ZArith NArith List String Ascii Bool DecimalString Reals Lra Lia.
From stdpp Require Import base list.
Import ListNotations.

(* ===================================================================== *)
(** * Part I: definitions                                                  *)
(* ===================================================================== *)

(** ** JavaScript strings *)

(** A JavaScript string is a sequence of UTF-16 code units. *)
Definition jsstring : Type := list N.

(** Source literals are ASCII; [lit] gives their code units. *)
Definition lit (s : string) : jsstring :=
  List.map N_of_ascii (list_ascii_of_string s).

(** [a === b] on two strings. *)
Fixpoint strictEq (a b : jsstring) : bool :=
  match a, b with
  | [], [] => true
  | x :: a', y :: b' => N.eqb x y && strictEq a' b'
  | _, _ => false
  end.

(** Code units removed by [String.prototype.trim]: WhiteSpace and
    LineTerminator of ECMAScript. *)
Definition isWhiteSpace (c : N) : bool :=
  (N.leb 9 c && N.leb c 13)            (* TAB LF VT FF CR *)
  || N.eqb c 32                        (* SPACE *)
  || N.eqb c 160                       (* NBSP *)
  || N.eqb c 5760                      (* U+1680 *)
  || (N.leb 8192 c && N.leb c 8202)    (* U+2000 .. U+200A *)
  || N.eqb c 8232 || N.eqb c 8233      (* LS PS *)
  || N.eqb c 8239                      (* U+202F *)
  || N.eqb c 8287                      (* U+205F *)
  || N.eqb c 12288                     (* U+3000 *)
  || N.eqb c 65279.                    (* U+FEFF *)

Fixpoint trimStart (s : jsstring) : jsstring :=
  match s with
  | c :: s' => if isWhiteSpace c then trimStart s' else s
  | [] => []
  end.

Definition trimEnd (s : jsstring) : jsstring := rev (trimStart (rev s)).

(** [s.trim()] *)
Definition trim (s : jsstring) : jsstring := trimEnd (trimStart s).

(** [s.startsWith(p)] *)
Fixpoint startsWith (s p : jsstring) : bool :=
  match p, s with
  | [], _ => true
  | y :: p', x :: s' => N.eqb x y && startsWith s' p'
  | _ :: _, [] => false
  end.

(** [s.includes(sub)]: [sub] occurs in [s] at some position. *)
Fixpoint includes (s sub : jsstring) : bool :=
  startsWith s sub ||
  match s with
  | [] => false
  | _ :: s' => includes s' sub
  end.

(** [arr.includes(p)] on an array of strings. *)
Definition array_includes (arr : list jsstring) (p : jsstring) : bool :=
  existsb (fun q => strictEq q p) arr.

(** ** JavaScript numbers and primitive values *)

(** The Number type and the built-in conversions that involve it are taken
    as an interface: the script only moves numbers around and converts them
    to and from strings. *)
Class JsNumber := {
  number : Type;
  NaN : number;
  of_Z : Z -> number;                         (* integer literals *)
  NumberToString : number -> jsstring;        (* Number::toString *)
  StringToNumber : jsstring -> number;        (* ToNumber on a string *)
  NumberToBoolean : number -> bool            (* false for 0 and NaN *)
}.

Section Script.
Context `{JsNumber}.

(** The primitive values a decoded JSON document or a DOM property holds. *)
Inductive jsval : Type :=
| JUndefined
| JNull
| JBool (b : bool)
| JNum (n : number)
| JStr (s : jsstring).

(** [v == null] *)
Definition isNullish (v : jsval) : bool :=
  match v with
  | JUndefined | JNull => true
  | _ => false
  end.

(** [String(v)] *)
Definition ToString (v : jsval) : jsstring :=
  match v with
  | JUndefined => lit "undefined"
  | JNull => lit "null"
  | JBool true => lit "true"
  | JBool false => lit "false"
  | JNum n => NumberToString n
  | JStr s => s
  end.

(** [Number(v)] *)
Definition Number (v : jsval) : number :=
  match v with
  | JUndefined => NaN
  | JNull => of_Z 0
  | JBool true => of_Z 1
  | JBool false => of_Z 0
  | JNum n => n
  | JStr s => StringToNumber s
  end.

(** [Boolean(v)] *)
Definition Boolean (v : jsval) : bool :=
  match v with
  | JUndefined | JNull => false
  | JBool b => b
  | JNum n => NumberToBoolean n
  | JStr [] => false
  | JStr (_ :: _) => true
  end.

(** Assignment to a DOM string attribute declared with
    LegacyNullToEmptyString ([input.value], [textContent]). *)
Definition toDOMString (v : jsval) : jsstring :=
  match v with
  | JNull => []
  | _ => ToString v
  end.

(** [a || b] *)
Definition jsOr (a b : jsval) : jsval := if Boolean a then a else b.

(** ** Targets as the API returns them *)

Record item : Type := {
  id : jsval;
  type : jsval;
  name : jsval;
  target : jsval;
  enabled : jsval;
  scrape_profile : jsval;
  icmp_count : jsval;
  icmp_interval_ms : jsval;
  icmp_timeout_ms : jsval;
  icmp_packet_size : jsval;
  icmp_df : jsval
}.

Record IcmpConfig : Type := {
  count : number;
  interval_ms : number;
  timeout_ms : number;
  packet_size : number;
  df : bool
}.

Definition ICMP_DEFAULTS : IcmpConfig :=
  {| count := of_Z 4;
     interval_ms := of_Z 1000;
     timeout_ms := of_Z 1000;
     packet_size := of_Z 56;
     df := false |}.

Definition SCRAPE_PROFILES : list jsstring :=
  [lit "1s"; lit "5s"; lit "15s"; lit "60s"].

Definition DEFAULT_SCRAPE_PROFILE : jsstring := lit "15s".

Definition effectiveScrapeProfile (it : item) : jsstring :=
  let raw : jsstring :=
    if isNullish (scrape_profile it) then [] else ToString (scrape_profile it) in
  let p := trim raw in
  if array_includes SCRAPE_PROFILES p then p else DEFAULT_SCRAPE_PROFILE.

Definition effectiveIcmp (it : item) : IcmpConfig :=
  {| count := if isNullish (icmp_count it) then count ICMP_DEFAULTS
              else Number (icmp_count it);
     interval_ms := if isNullish (icmp_interval_ms it) then interval_ms ICMP_DEFAULTS
                    else Number (icmp_interval_ms it);
     timeout_ms := if isNullish (icmp_timeout_ms it) then timeout_ms ICMP_DEFAULTS
                   else Number (icmp_timeout_ms it);
     packet_size := if isNullish (icmp_packet_size it) then packet_size ICMP_DEFAULTS
                    else Number (icmp_packet_size it);
     df := if isNullish (icmp_df it) then df ICMP_DEFAULTS
           else Boolean (icmp_df it) |}.


(** ** The page *)

(** A row of the targets table.  The row's "enabled" checkbox is a DOM
    element of its own: the row holds a reference into the store of
    checkbox elements, because the element's listener keeps the element
    alive after the table is rendered again. *)
Inductive trow : Type :=
| NoTargetsRow                                   (* "No targets yet." *)
| TargetRow (it : item) (checkbox : nat)
            (tdName tdTarget tdScrape tdIcmp : jsstring).

Record Page : Type := {
  (* script globals *)
  currentType : jsstring;
  editId : jsval;
  (* status line, tab strip, discovery link, hint, ICMP block *)
  statusEl_textContent : jsstring;
  statusEl_error : bool;                 (* class "error" present *)
  tabs : list (jsstring * bool);         (* data-type, class "active" present *)
  sdLink_href : jsstring;
  hintEl_textContent : jsstring;
  icmpConfigEl_hidden : bool;
  (* the form *)
  nameInput_value : jsstring;
  targetInput_value : jsstring;
  scrapeProfileSelect_value : jsstring;
  icmpCountInput_value : jsstring;
  icmpIntervalInput_value : jsstring;
  icmpTimeoutInput_value : jsstring;
  icmpPacketSizeInput_value : jsstring;
  icmpDfInput_checked : bool;
  icmpDfInput_disabled : bool;
  submitBtn_textContent : jsstring;
  cancelEditBtn_hidden : bool;
  (* the table *)
  checkboxes : list bool;                (* [checked] of every checkbox created *)
  tbody : list trow
}.

(** U+2026, the ellipsis of the progress messages. *)
Definition ellipsis : jsstring := [8230%N].

Definition setStatus (message kind : jsstring) (s : Page) : Page :=
  {| currentType := currentType s;
     editId := editId s;
     statusEl_textContent := toDOMString (jsOr (JStr message) (JStr []));
     statusEl_error := strictEq kind (lit "error");
     tabs := tabs s;
     sdLink_href := sdLink_href s;
     hintEl_textContent := hintEl_textContent s;
     icmpConfigEl_hidden := icmpConfigEl_hidden s;
     nameInput_value := nameInput_value s;
     targetInput_value := targetInput_value s;
     scrapeProfileSelect_value := scrapeProfileSelect_value s;
     icmpCountInput_value := icmpCountInput_value s;
     icmpIntervalInput_value := icmpIntervalInput_value s;
     icmpTimeoutInput_value := icmpTimeoutInput_value s;
     icmpPacketSizeInput_value := icmpPacketSizeInput_value s;
     icmpDfInput_checked := icmpDfInput_checked s;
     icmpDfInput_disabled := icmpDfInput_disabled s;
     submitBtn_textContent := submitBtn_textContent s;
     cancelEditBtn_hidden := cancelEditBtn_hidden s;
     checkboxes := checkboxes s;
     tbody := tbody s |}.

Definition hintFor (type : jsstring) : jsstring :=
  if strictEq type (lit "http") then
    lit "HTTP: example.com, https://example.com/path (scheme defaults to https)."
  else if strictEq type (lit "tcp") then
    lit "TCP: host:port (port defaults to 443). IPv6: [2001:db8::1]:443"
  else if strictEq type (lit "dns") then
    lit "DNS: resolver:53 (port defaults to 53). Example: 1.1.1.1:53"
  else if strictEq type (lit "icmp") then
    lit "ICMP: hostname or IP (no port). Configure count/interval/timeout/size/DF for loss+jitter."
  else [].

(** The test of [updateIcmpDfAvailability] on the value of the target
    field. *)
Definition looksLikeIpv6 (value : jsstring) : bool :=
  let t := trim (ToString (jsOr (JStr value) (JStr []))) in
  includes t (lit ":") || (startsWith t (lit "[") && includes t (lit "]")).

Definition updateIcmpDfAvailability (s : Page) : Page :=
  if negb (strictEq (currentType s) (lit "icmp")) then s
  else
    {| currentType := currentType s;
       editId := editId s;
       statusEl_textContent := statusEl_textContent s;
       statusEl_error := statusEl_error s;
       tabs := tabs s;
       sdLink_href := sdLink_href s;
       hintEl_textContent := hintEl_textContent s;
       icmpConfigEl_hidden := icmpConfigEl_hidden s;
       nameInput_value := nameInput_value s;
       targetInput_value := targetInput_value s;
       scrapeProfileSelect_value := scrapeProfileSelect_value s;
       icmpCountInput_value := icmpCountInput_value s;
       icmpIntervalInput_value := icmpIntervalInput_value s;
       icmpTimeoutInput_value := icmpTimeoutInput_value s;
       icmpPacketSizeInput_value := icmpPacketSizeInput_value s;
       icmpDfInput_checked :=
         if looksLikeIpv6 (targetInput_value s) then false
         else icmpDfInput_checked s;
       icmpDfInput_disabled := looksLikeIpv6 (targetInput_value s);
       submitBtn_textContent := submitBtn_textContent s;
       cancelEditBtn_hidden := cancelEditBtn_hidden s;
       checkboxes := checkboxes s;
       tbody := tbody s |}.

(** [v === "..."] for a value and a string literal. *)
Definition isString (v : jsval) (s : jsstring) : bool :=
  match v with
  | JStr x => strictEq x s
  | _ => false
  end.

(** The text of the ICMP cell of a row. *)
Definition icmpCell (it : item) : jsstring :=
  if isString (type it) (lit "icmp") then
    let cfg := effectiveIcmp it in
    lit "count=" ++ NumberToString (count cfg)
    ++ lit " interval=" ++ NumberToString (interval_ms cfg)
    ++ lit "ms timeout=" ++ NumberToString (timeout_ms cfg)
    ++ lit "ms size=" ++ NumberToString (packet_size cfg)
    ++ lit " df=" ++ (if df cfg then lit "on" else lit "off")
  else [].

(** The loop of [renderRows]: one row and one new checkbox per item. *)
Fixpoint renderLoop (items : list item) (store : list bool) (rows : list trow)
  : list bool * list trow :=
  match items with
  | [] => (store, rows)
  | it :: rest =>
      let tr := TargetRow it (length store)
                  (toDOMString (jsOr (name it) (JStr [])))
                  (toDOMString (target it))
                  (effectiveScrapeProfile it)
                  (icmpCell it) in
      renderLoop rest (store ++ [Boolean (enabled it)]) (rows ++ [tr])
  end.

Definition renderRows (items : list item) (s : Page) : Page :=
  let '(store, rows) :=
    match items with
    | [] => (checkboxes s, [NoTargetsRow])
    | _ :: _ => renderLoop items (checkboxes s) []
    end in
  {| currentType := currentType s;
     editId := editId s;
     statusEl_textContent := statusEl_textContent s;
     statusEl_error := statusEl_error s;
     tabs := tabs s;
     sdLink_href := sdLink_href s;
     hintEl_textContent := hintEl_textContent s;
     icmpConfigEl_hidden := icmpConfigEl_hidden s;
     nameInput_value := nameInput_value s;
     targetInput_value := targetInput_value s;
     scrapeProfileSelect_value := scrapeProfileSelect_value s;
     icmpCountInput_value := icmpCountInput_value s;
     icmpIntervalInput_value := icmpIntervalInput_value s;
     icmpTimeoutInput_value := icmpTimeoutInput_value s;
     icmpPacketSizeInput_value := icmpPacketSizeInput_value s;
     icmpDfInput_checked := icmpDfInput_checked s;
     icmpDfInput_disabled := icmpDfInput_disabled s;
     submitBtn_textContent := submitBtn_textContent s;
     cancelEditBtn_hidden := cancelEditBtn_hidden s;
     checkboxes := store;
     tbody := rows |}.

(** [setType(type)], up to the call of [refresh()]. *)
Definition setType (type : jsstring) (s : Page) : Page :=
  let s1 := setStatus [] (lit "info") s in
  updateIcmpDfAvailability
    {| currentType := type;
       editId := JNull;
       statusEl_textContent := statusEl_textContent s1;
       statusEl_error := statusEl_error s1;
       tabs := List.map (fun t => (fst t, strictEq (fst t) type)) (tabs s);
       sdLink_href := lit "/sd/" ++ type;
       hintEl_textContent := hintFor type;
       icmpConfigEl_hidden := negb (strictEq type (lit "icmp"));
       nameInput_value := [];
       targetInput_value := [];
       scrapeProfileSelect_value := DEFAULT_SCRAPE_PROFILE;
       icmpCountInput_value := ToString (JNum (count ICMP_DEFAULTS));
       icmpIntervalInput_value := ToString (JNum (interval_ms ICMP_DEFAULTS));
       icmpTimeoutInput_value := ToString (JNum (timeout_ms ICMP_DEFAULTS));
       icmpPacketSizeInput_value := ToString (JNum (packet_size ICMP_DEFAULTS));
       icmpDfInput_checked := Boolean (JBool (df ICMP_DEFAULTS));
       icmpDfInput_disabled := icmpDfInput_disabled s;
       submitBtn_textContent := lit "Add";
       cancelEditBtn_hidden := true;
       checkboxes := checkboxes s;
       tbody := tbody s |}.

(** The click listener of a row's Edit button, [it] being the row's item. *)
Definition editClick (it : item) (s : Page) : Page :=
  let icmp := isString (type it) (lit "icmp") in
  let cfg := effectiveIcmp it in
  setStatus (lit "Editing target #" ++ ToString (id it)) (lit "info")
    (updateIcmpDfAvailability
       {| currentType := currentType s;
          editId := id it;
          statusEl_textContent := statusEl_textContent s;
          statusEl_error := statusEl_error s;
          tabs := tabs s;
          sdLink_href := sdLink_href s;
          hintEl_textContent := hintEl_textContent s;
          icmpConfigEl_hidden := icmpConfigEl_hidden s;
          nameInput_value := toDOMString (jsOr (name it) (JStr []));
          targetInput_value := toDOMString (target it);
          scrapeProfileSelect_value := effectiveScrapeProfile it;
          icmpCountInput_value :=
            if icmp then ToString (JNum (count cfg)) else icmpCountInput_value s;
          icmpIntervalInput_value :=
            if icmp then ToString (JNum (interval_ms cfg)) else icmpIntervalInput_value s;
          icmpTimeoutInput_value :=
            if icmp then ToString (JNum (timeout_ms cfg)) else icmpTimeoutInput_value s;
          icmpPacketSizeInput_value :=
            if icmp then ToString (JNum (packet_size cfg)) else icmpPacketSizeInput_value s;
          icmpDfInput_checked :=
            if icmp then Boolean (JBool (df cfg)) else icmpDfInput_checked s;
          icmpDfInput_disabled := icmpDfInput_disabled s;
          submitBtn_textContent := lit "Save";
          cancelEditBtn_hidden := false;
          checkboxes := checkboxes s;
          tbody := tbody s |}).

(** The click listener of the Cancel button. *)
Definition cancelEdit (s : Page) : Page :=
  setStatus [] (lit "info")
    (updateIcmpDfAvailability
       {| currentType := currentType s;
          editId := JNull;
          statusEl_textContent := statusEl_textContent s;
          statusEl_error := statusEl_error s;
          tabs := tabs s;
          sdLink_href := sdLink_href s;
          hintEl_textContent := hintEl_textContent s;
          icmpConfigEl_hidden := icmpConfigEl_hidden s;
          nameInput_value := [];
          targetInput_value := [];
          scrapeProfileSelect_value := DEFAULT_SCRAPE_PROFILE;
          icmpCountInput_value := ToString (JNum (count ICMP_DEFAULTS));
          icmpIntervalInput_value := ToString (JNum (interval_ms ICMP_DEFAULTS));
          icmpTimeoutInput_value := ToString (JNum (timeout_ms ICMP_DEFAULTS));
          icmpPacketSizeInput_value := ToString (JNum (packet_size ICMP_DEFAULTS));
          icmpDfInput_checked := Boolean (JBool (df ICMP_DEFAULTS));
          icmpDfInput_disabled := icmpDfInput_disabled s;
          submitBtn_textContent := lit "Add";
          cancelEditBtn_hidden := true;
          checkboxes := checkboxes s;
          tbody := tbody s |}).

(** *** Requests *)

(** A request body: the properties of the object literal, in order. *)
Definition jsobject : Type := list (string * jsval).

Fixpoint prop (key : string) (o : jsobject) : option jsval :=
  match o with
  | [] => None
  | (k, v) :: o' => if String.eqb k key then Some v else prop key o'
  end.

(** The calls of [api] the script makes. *)
Inductive request : Type :=
| GET_targets (type : jsstring)             (* GET /api/targets?type=<type> *)
| POST_targets (body : jsobject)            (* POST /api/targets *)
| PATCH_target (id : jsval) (body : jsobject)  (* PATCH /api/targets/<id> *)
| DELETE_target (id : jsval).               (* DELETE /api/targets/<id> *)

(** The [body] the submit listener builds from the form. *)
Definition submitBody (s : Page) : jsobject :=
  [("name", JStr (nameInput_value s));
   ("target", JStr (targetInput_value s));
   ("scrape_profile", JStr (scrapeProfileSelect_value s))]%string
  ++ (if strictEq (currentType s) (lit "icmp") then
        [("icmp_count", JNum (Number (JStr (icmpCountInput_value s))));
         ("icmp_interval_ms", JNum (Number (JStr (icmpIntervalInput_value s))));
         ("icmp_timeout_ms", JNum (Number (JStr (icmpTimeoutInput_value s))));
         ("icmp_packet_size", JNum (Number (JStr (icmpPacketSizeInput_value s))));
         ("icmp_df", JBool (Boolean (JBool (icmpDfInput_checked s))))]%string
      else []).

(** The request of the submit listener. *)
Definition submitRequest (s : Page) : request :=
  if isNullish (editId s) then
    POST_targets (("type"%string, JStr (currentType s)) :: submitBody s)
  else PATCH_target (editId s) (submitBody s).

(** The submit listener up to its first [await]. *)
Definition submitStart (s : Page) : Page :=
  if isNullish (editId s) then setStatus (lit "Adding" ++ ellipsis) (lit "info") s
  else setStatus (lit "Saving" ++ ellipsis) (lit "info") s.

(** The submit listener after [api] resolved, up to [await refresh()]. *)
Definition submitAccepted (s : Page) : Page :=
  updateIcmpDfAvailability
    {| currentType := currentType s;
       editId := JNull;
       statusEl_textContent := statusEl_textContent s;
       statusEl_error := statusEl_error s;
       tabs := tabs s;
       sdLink_href := sdLink_href s;
       hintEl_textContent := hintEl_textContent s;
       icmpConfigEl_hidden := icmpConfigEl_hidden s;
       nameInput_value := [];
       targetInput_value := [];
       scrapeProfileSelect_value := scrapeProfileSelect_value s;
       icmpCountInput_value := icmpCountInput_value s;
       icmpIntervalInput_value := icmpIntervalInput_value s;
       icmpTimeoutInput_value := icmpTimeoutInput_value s;
       icmpPacketSizeInput_value := icmpPacketSizeInput_value s;
       icmpDfInput_checked := icmpDfInput_checked s;
       icmpDfInput_disabled := icmpDfInput_disabled s;
       submitBtn_textContent := lit "Add";
       cancelEditBtn_hidden := true;
       checkboxes := checkboxes s;
       tbody := tbody s |}.

(** *** Turns of the event loop *)

Definition withCheckboxes (store : list bool) (s : Page) : Page :=
  {| currentType := currentType s;
     editId := editId s;
     statusEl_textContent := statusEl_textContent s;
     statusEl_error := statusEl_error s;
     tabs := tabs s;
     sdLink_href := sdLink_href s;
     hintEl_textContent := hintEl_textContent s;
     icmpConfigEl_hidden := icmpConfigEl_hidden s;
     nameInput_value := nameInput_value s;
     targetInput_value := targetInput_value s;
     scrapeProfileSelect_value := scrapeProfileSelect_value s;
     icmpCountInput_value := icmpCountInput_value s;
     icmpIntervalInput_value := icmpIntervalInput_value s;
     icmpTimeoutInput_value := icmpTimeoutInput_value s;
     icmpPacketSizeInput_value := icmpPacketSizeInput_value s;
     icmpDfInput_checked := icmpDfInput_checked s;
     icmpDfInput_disabled := icmpDfInput_disabled s;
     submitBtn_textContent := submitBtn_textContent s;
     cancelEditBtn_hidden := cancelEditBtn_hidden s;
     checkboxes := store;
     tbody := tbody s |}.

(** [checkbox.checked = !checkbox.checked], also what a click does to it. *)
Definition flipCheckbox (checkbox : nat) (s : Page) : Page :=
  match checkboxes s !! checkbox with
  | Some b => withCheckboxes (<[checkbox := negb b]> (checkboxes s)) s
  | None => s
  end.

Inductive field : Type :=
| TargetField | NameField | ScrapeProfileField
| IcmpCountField | IcmpIntervalField | IcmpTimeoutField | IcmpPacketSizeField.

(** The user changes the value of a text field or of the select. *)
Definition typeInto (f : field) (v : jsstring) (s : Page) : Page :=
  let pick (g : bool) (old : jsstring) := if g then v else old in
  {| currentType := currentType s;
     editId := editId s;
     statusEl_textContent := statusEl_textContent s;
     statusEl_error := statusEl_error s;
     tabs := tabs s;
     sdLink_href := sdLink_href s;
     hintEl_textContent := hintEl_textContent s;
     icmpConfigEl_hidden := icmpConfigEl_hidden s;
     nameInput_value :=
       pick (match f with NameField => true | _ => false end) (nameInput_value s);
     targetInput_value :=
       pick (match f with TargetField => true | _ => false end) (targetInput_value s);
     scrapeProfileSelect_value :=
       pick (match f with ScrapeProfileField => true | _ => false end)
            (scrapeProfileSelect_value s);
     icmpCountInput_value :=
       pick (match f with IcmpCountField => true | _ => false end)
            (icmpCountInput_value s);
     icmpIntervalInput_value :=
       pick (match f with IcmpIntervalField => true | _ => false end)
            (icmpIntervalInput_value s);
     icmpTimeoutInput_value :=
       pick (match f with IcmpTimeoutField => true | _ => false end)
            (icmpTimeoutInput_value s);
     icmpPacketSizeInput_value :=
       pick (match f with IcmpPacketSizeField => true | _ => false end)
            (icmpPacketSizeInput_value s);
     icmpDfInput_checked := icmpDfInput_checked s;
     icmpDfInput_disabled := icmpDfInput_disabled s;
     submitBtn_textContent := submitBtn_textContent s;
     cancelEditBtn_hidden := cancelEditBtn_hidden s;
     checkboxes := checkboxes s;
     tbody := tbody s |}.

(** The user clicks the DF checkbox; a disabled checkbox ignores clicks. *)
Definition clickDf (s : Page) : Page :=
  if icmpDfInput_disabled s then s
  else
    {| currentType := currentType s;
       editId := editId s;
       statusEl_textContent := statusEl_textContent s;
       statusEl_error := statusEl_error s;
       tabs := tabs s;
       sdLink_href := sdLink_href s;
       hintEl_textContent := hintEl_textContent s;
       icmpConfigEl_hidden := icmpConfigEl_hidden s;
       nameInput_value := nameInput_value s;
       targetInput_value := targetInput_value s;
       scrapeProfileSelect_value := scrapeProfileSelect_value s;
       icmpCountInput_value := icmpCountInput_value s;
       icmpIntervalInput_value := icmpIntervalInput_value s;
       icmpTimeoutInput_value := icmpTimeoutInput_value s;
       icmpPacketSizeInput_value := icmpPacketSizeInput_value s;
       icmpDfInput_checked := negb (icmpDfInput_checked s);
       icmpDfInput_disabled := icmpDfInput_disabled s;
       submitBtn_textContent := submitBtn_textContent s;
       cancelEditBtn_hidden := cancelEditBtn_hidden s;
       checkboxes := checkboxes s;
       tbody := tbody s |}.

(** Which listener a pending request belongs to: a bare [refresh()] (tab
    switch, Refresh button), the submit listener, the change listener of an
    "enabled" checkbox, or the Delete listener. *)
Inductive origin : Type :=
| ByRefresh
| BySubmit
| ByToggle (checkbox : nat)
| ByDelete.

(** One constructor per run-to-completion turn: a user action with the
    synchronous part of its listener, or the part of an async listener that
    runs when the request it awaits resolves or fails. *)
Inductive event : Type :=
| Input (f : field) (v : jsstring)
| DfClick
| TabClick (type : jsstring)
| EditClick (row : nat)
| CancelClick
| RefreshClick
| Submit
| EnabledClick (row : nat)
| DeleteClick (row : nat) (confirmed : bool)
| Accepted (o : origin)                        (* POST, PATCH or DELETE resolved *)
| Rendered (o : origin) (items : list item)    (* GET resolved *)
| Rejected (o : origin) (message : jsstring).  (* a request failed: the catch *)

Definition step (e : event) (s : Page) : Page :=
  match e with
  | Input TargetField v => updateIcmpDfAvailability (typeInto TargetField v s)
  | Input f v => typeInto f v s
  | DfClick => clickDf s
  | TabClick type => setType type s
  | EditClick row =>
      match tbody s !! row with
      | Some (TargetRow it _ _ _ _ _) => editClick it s
      | _ => s
      end
  | CancelClick => cancelEdit s
  | RefreshClick => s
  | Submit => submitStart s
  | EnabledClick row =>
      match tbody s !! row with
      | Some (TargetRow _ checkbox _ _ _ _) =>
          setStatus (lit "Saving" ++ ellipsis) (lit "info") (flipCheckbox checkbox s)
      | _ => s
      end
  | DeleteClick row confirmed =>
      match tbody s !! row with
      | Some (TargetRow _ _ _ _ _ _) =>
          if confirmed then setStatus (lit "Deleting" ++ ellipsis) (lit "info") s else s
      | _ => s
      end
  | Accepted BySubmit => submitAccepted s
  | Accepted _ => s
  | Rendered ByRefresh items => renderRows items s
  | Rendered BySubmit items => setStatus (lit "Saved") (lit "info") (renderRows items s)
  | Rendered (ByToggle _) items => setStatus (lit "Saved") (lit "info") (renderRows items s)
  | Rendered ByDelete items => setStatus (lit "Deleted") (lit "info") (renderRows items s)
  | Rejected (ByToggle checkbox) message =>
      setStatus message (lit "error") (flipCheckbox checkbox s)
  | Rejected _ message => setStatus message (lit "error") s
  end.

(** The requests a turn sends, from the state the turn starts in. *)
Definition requests (e : event) (s : Page) : list request :=
  match e with
  | TabClick type => [GET_targets type]
  | RefreshClick => [GET_targets (currentType s)]
  | Submit => [submitRequest s]
  | EnabledClick row =>
      match tbody s !! row with
      | Some (TargetRow it checkbox _ _ _ _) =>
          match checkboxes s !! checkbox with
          | Some b => [PATCH_target (id it) [("enabled"%string, JBool (negb b))]]
          | None => []
          end
      | _ => []
      end
  | DeleteClick row true =>
      match tbody s !! row with
      | Some (TargetRow it _ _ _ _ _) => [DELETE_target (id it)]
      | _ => []
      end
  | Accepted ByRefresh => []
  | Accepted _ => [GET_targets (currentType (step e s))]
  | _ => []
  end.

Definition run (events : list event) (s : Page) : Page :=
  fold_left (fun s e => step e s) events s.

(** The script's top level: [currentType = "http"], [editId = null] and
    the final [setType("http")], over the page as the HTML gives it. *)
Definition boot (html : Page) : Page := setType (lit "http") html.

End Script.

(** ** The [api] helper *)

Section Api.
Context `{JsNumber}.

(** The message of the TypeError the engine throws when an object cannot
    be converted to a primitive. *)
Variable conversionError : jsstring.

(** A value [res.json()] resolves with. *)
#[local] Unset Elimination Schemes.
Inductive json : Type :=
| JsonNull
| JsonBool (b : bool)
| JsonNum (n : number)
| JsonStr (s : jsstring)
| JsonArr (elements : list json)
| JsonObj (members : list (jsstring * json)).   (* in the order of the text *)
#[local] Set Elimination Schemes.

(** [o[key]] on a parsed object: of two members with one name the later
    one is the property; [None] is undefined. *)
Fixpoint getMember (key : jsstring) (members : list (jsstring * json)) : option json :=
  match members with
  | [] => None
  | (k, v) :: rest =>
      match getMember key rest with
      | Some w => Some w
      | None => if strictEq k key then Some v else None
      end
  end.

(** ToBoolean *)
Definition jsonTruthy (j : json) : bool :=
  match j with
  | JsonNull => false
  | JsonBool b => b
  | JsonNum n => NumberToBoolean n
  | JsonStr [] => false
  | JsonStr (_ :: _) => true
  | JsonArr _ | JsonObj _ => true
  end.

(** ToString.  An array joins its elements with commas, null elements
    giving nothing.  An object is "[object Object]", unless a member named
    toString hides the inherited method: a parsed value is never callable,
    and the conversion throws ([None]). *)
Fixpoint jsonToString (j : json) : option jsstring :=
  match j with
  | JsonNull => Some (lit "null")
  | JsonBool true => Some (lit "true")
  | JsonBool false => Some (lit "false")
  | JsonNum n => Some (NumberToString n)
  | JsonStr s => Some s
  | JsonArr elements =>
      (fix join (l : list json) : option jsstring :=
         match l with
         | [] => Some []
         | x :: rest =>
             match match x with JsonNull => Some [] | _ => jsonToString x end with
             | None => None
             | Some first =>
                 match rest with
                 | [] => Some first
                 | _ :: _ =>
                     match join rest with
                     | None => None
                     | Some others => Some (first ++ lit "," ++ others)
                     end
                 end
             end
         end) elements
  | JsonObj members =>
      match getMember (lit "toString") members with
      | Some _ => None
      | None => Some (lit "[object Object]")
      end
  end.

(** What [api] has in [payload]: the text of the body or its parsed value. *)
Inductive payload : Type :=
| Text (s : jsstring)
| Json (j : json).

(** What [await fetch(path, opts)] gives: a rejection, or a response with
    its [ok] flag, its status, its content-type header ([None] when
    [headers.get] returns null), and what [res.text()] and [res.json()]
    settle with: a value, or the message of the rejection (the body
    cannot be read, or does not parse). *)
Inductive fetched : Type :=
| FetchFailed (message : jsstring)
| Response (ok : bool) (status : number) (contentType : option jsstring)
           (text : jsstring + jsstring) (parsed : json + jsstring).

(** An awaited call: its value, or the [message] of the error thrown. *)
Inductive outcome (A : Type) : Type :=
| Returns (value : A)
| Throws (message : jsstring).
Arguments Returns {A} value.
Arguments Throws {A} message.

(** [payload && payload.error], when it is truthy. *)
Definition errorOf (p : payload) : option json :=
  match p with
  | Text _ => None                      (* a string has no [error] property *)
  | Json (JsonObj members) =>
      match getMember (lit "error") members with
      | Some e => if jsonTruthy e then Some e else None
      | None => None
      end
  | Json _ => None                      (* null is falsy; the rest have no [error] *)
  end.

(** [api(method, path, body)] from the response on. *)
Definition api (r : fetched) : outcome payload :=
  match r with
  | FetchFailed message => Throws message
  | Response ok status contentType text parsed =>
      let header : jsstring :=
        match contentType with
        | Some (c :: v) => c :: v
        | _ => []
        end in
      let isJson := includes header (lit "application/json") in
      let read : outcome payload :=
        if isJson then
          match parsed with
          | inl j => Returns (Json j)
          | inr message => Throws message
          end
        else
          match text with
          | inl t => Returns (Text t)
          | inr message => Throws message
          end in
      match read with
      | Throws message => Throws message
      | Returns p =>
          if negb ok then
            match errorOf p with
            | Some e =>
                match jsonToString e with
                | Some message => Throws message
                | None => Throws conversionError
                end
            | None => Throws (lit "HTTP " ++ NumberToString status)
            end
          else Returns p
      end
  end.

(** The turn that follows [await api(...)] in the submit, change and
    Delete listeners, which drop the value: they go on, or their catch
    block runs with [err.message]. *)
Definition afterMutation (o : origin) (result : outcome payload) : event :=
  match result with
  | Returns _ => Accepted o
  | Throws message => Rejected o message
  end.

End Api.

Arguments Returns {A} value.
Arguments Throws {A} message.

(** ** Vocabulary of the statements *)

(** [sub] occurs in [s] as a contiguous substring. *)
Definition occursIn (sub s : jsstring) : Prop :=
  exists before after, s = before ++ sub ++ after.

(** [p] is an initial segment of [s]. *)
Definition beginsWith (p s : jsstring) : Prop :=
  exists after, s = p ++ after.

(** The classification of a target string in the words of the
    specification: it contains a colon, or it starts with an opening
    bracket and contains a closing one. *)
Definition specIpv6Literal (target : jsstring) : Prop :=
  occursIn (lit ":") target
  \/ (beginsWith (lit "[") target /\ occursIn (lit "]") target).

(** The stored scrape profile as a string: null (or a missing property)
    read as the empty string, white space trimmed. *)
Definition storedProfile `{JsNumber} (it : item) : jsstring :=
  trim match scrape_profile it with
       | JNull | JUndefined => []
       | v => ToString v
       end.

(** The body a request carries, if any. *)
Definition bodyOf `{JsNumber} (r : request) : jsobject :=
  match r with
  | POST_targets body | PATCH_target _ body => body
  | GET_targets _ | DELETE_target _ => []
  end.

(** On the ICMP tab, a target the script takes for an IPv6 literal has its
    DF checkbox unchecked and disabled. *)
Definition dfForcedOff `{JsNumber} (s : Page) : Prop :=
  currentType s = lit "icmp" ->
  looksLikeIpv6 (targetInput_value s) = true ->
  icmpDfInput_checked s = false /\ icmpDfInput_disabled s = true.

(** A turn that is neither a click on the given "enabled" checkbox nor
    the failure of a request of its listener. *)
Definition leavesCheckbox `{JsNumber} (checkbox : nat) (e : event) (s : Page) : Prop :=
  match e with
  | EnabledClick row =>
      match tbody s !! row with
      | Some (TargetRow _ other _ _ _ _) => other <> checkbox
      | _ => True
      end
  | Rejected (ByToggle other) _ => other <> checkbox
  | _ => True
  end.

(** Every turn of a run leaves the checkbox alone. *)
Fixpoint quietFor `{JsNumber} (checkbox : nat) (events : list event) (s : Page) : Prop :=
  match events with
  | [] => True
  | e :: rest => leavesCheckbox checkbox e s /\ quietFor checkbox rest (step e s)
  end.

(** The tab strip, the discovery link, the hint and the ICMP block agree
    with the current type. *)
Definition chromeFollowsType `{JsNumber} (s : Page) : Prop :=
  sdLink_href s = lit "/sd/" ++ currentType s
  /\ hintEl_textContent s = hintFor (currentType s)
  /\ icmpConfigEl_hidden s = negb (strictEq (currentType s) (lit "icmp"))
  /\ Forall (fun t => snd t = strictEq (fst t) (currentType s)) (tabs s).

(** On the ICMP tab the DF checkbox is disabled exactly for the targets
    the script takes for IPv6 literals. *)
Definition dfTracksTarget `{JsNumber} (s : Page) : Prop :=
  currentType s = lit "icmp" ->
  icmpDfInput_disabled s = looksLikeIpv6 (targetInput_value s).

(** The form is in one of its two modes: adding (button "Add", Cancel
    hidden, no edited id) or editing (button "Save", Cancel shown). *)
Definition addMode `{JsNumber} (s : Page) : Prop :=
  submitBtn_textContent s = lit "Add"
  /\ cancelEditBtn_hidden s = true
  /\ editId s = JNull.

Definition editMode `{JsNumber} (s : Page) : Prop :=
  submitBtn_textContent s = lit "Save"
  /\ cancelEditBtn_hidden s = false.

(** The checkbox references of the rows of a table, top to bottom. *)
Fixpoint rowCheckboxes `{JsNumber} (rows : list trow) : list nat :=
  match rows with
  | [] => []
  | NoTargetsRow :: rest => rowCheckboxes rest
  | TargetRow _ checkbox _ _ _ _ :: rest => checkbox :: rowCheckboxes rest
  end.

(** Every row refers to a checkbox that exists, and no two rows to the
    same one. *)
Definition ownCheckboxes `{JsNumber} (s : Page) : Prop :=
  NoDup (rowCheckboxes (tbody s))
  /\ Forall (fun checkbox => checkbox < length (checkboxes s)) (rowCheckboxes (tbody s)).

(** The names of the ICMP properties of a request body. *)
Definition icmpKeys : list string :=
  ["icmp_count"; "icmp_interval_ms"; "icmp_timeout_ms"; "icmp_packet_size";
   "icmp_df"]%string.

(** The row [renderRows] builds for the item at position [i], the
    checkbox store having [base] elements before the rendering. *)
Definition rowOf `{JsNumber} (base i : nat) (it : item) : trow :=
  TargetRow it (base + i)
    (toDOMString (jsOr (name it) (JStr [])))
    (toDOMString (target it))
    (effectiveScrapeProfile it)
    (icmpCell it).

(** Two pages that differ at most in the status line. *)
Definition sameButStatus `{JsNumber} (s s' : Page) : Prop :=
  setStatus [] [] s' = setStatus [] [] s.

(** The response declares a JSON body: it has a content-type header in
    which "application/json" occurs. *)
Definition jsonTyped (contentType : option jsstring) : Prop :=
  exists v, contentType = Some v /\ occursIn (lit "application/json") v.

(** ** The integer fragment of Number

    Integers and NaN are all the script's own literals and the stored ICMP
    parameters need; this instance runs the script on concrete pages. *)

Inductive intnum : Type :=
| NotANumber
| Int (z : Z).

(** Decimal digits, most significant first. *)
Fixpoint parseDigits (s : jsstring) (acc : Z) : option Z :=
  match s with
  | [] => Some acc
  | c :: s' =>
      if (N.leb 48 c && N.leb c 57)%bool
      then parseDigits s' (10 * acc + Z.of_N (c - 48))%Z
      else None
  end.

(** ToNumber on strings, for integer literals: surrounding white space is
    dropped, the empty string is 0, a sign may precede the digits. *)
Definition parseInteger (s : jsstring) : intnum :=
  match trim s with
  | [] => Int 0
  | 45%N :: ((_ :: _) as ds) =>
      match parseDigits ds 0 with Some z => Int (- z) | None => NotANumber end
  | 43%N :: ((_ :: _) as ds) =>
      match parseDigits ds 0 with Some z => Int z | None => NotANumber end
  | ds => match parseDigits ds 0 with Some z => Int z | None => NotANumber end
  end.

Definition printInteger (n : intnum) : jsstring :=
  match n with
  | NotANumber => lit "NaN"
  | Int z => lit (NilEmpty.string_of_int (Z.to_int z))
  end.

#[export] Instance IntNumber : JsNumber := {|
  number := intnum;
  NaN := NotANumber;
  of_Z := Int;
  NumberToString := printInteger;
  StringToNumber := parseInteger;
  NumberToBoolean := fun n => match n with Int z => negb (Z.eqb z 0) | NotANumber => false end
|}.

(** ** The statistics aggregator of the ICMP prober *)

Section Aggregator.
Local Open Scope R_scope.

(** Modelled from the spec: the outcome of one echo as the Echo Transport
    reports it (section 4.1, [EchoOutcome{rtt | timedOut | error}]); the
    prober's source is not among the files.  A send error and a missed
    deadline both count as a lost echo (section 7 c). *)
Inductive EchoOutcome : Type :=
| Rtt (seconds : R)
| TimedOut
| SendError.

Definition isLost (o : EchoOutcome) : bool :=
  match o with
  | Rtt _ => false
  | TimedOut | SendError => true
  end.

Definition lostCount (outcomes : list EchoOutcome) : nat :=
  length (List.filter isLost outcomes).

(** The round-trip times of the echoes that got a reply, in order. *)
Fixpoint successfulRtts (outcomes : list EchoOutcome) : list R :=
  match outcomes with
  | [] => []
  | Rtt r :: rest => r :: successfulRtts rest
  | _ :: rest => successfulRtts rest
  end.

Definition successfulReplies (outcomes : list EchoOutcome) : nat :=
  length (successfulRtts outcomes).

(** Modelled from the spec: the arithmetic the aggregator is built from,
    with its faults explicit.  A quotient by a zero count and the square
    root of a negative number have no value (a NaN or an exception in the
    prober). *)
Definition quotient (a : R) (n : nat) : option R :=
  match n with
  | O => None
  | S _ => Some (a / INR n)
  end.

Definition squareRoot (v : R) : option R :=
  if Rle_dec 0 v then Some (sqrt v) else None.

Definition total (xs : list R) : R := fold_right Rplus 0 xs.

(** [average(xs)] *)
Definition average (xs : list R) : option R := quotient (total xs) (length xs).

(** [population standard deviation(xs)] *)
Definition populationStddev (xs : list R) : option R :=
  mean ← average xs;
  variance ← quotient (total (List.map (fun x => (x - mean) * (x - mean)) xs)) (length xs);
  squareRoot variance.

(** Modelled from the spec: the ProbeResult of section 3. *)
Record ProbeResult : Type := {
  success : bool;
  loss_ratio : R;
  rtt_mean_seconds : R;
  rtt_stddev_seconds : R;
  samples : nat
}.

(** Modelled from the spec: the Statistics Aggregator of section 4.3 over
    the ordered outcomes of one run, [loss_ratio = lostCount / count],
    [success = lostCount < count], mean and population standard deviation
    of the successful round-trip times, the mean zero-defined without a
    reply and the deviation zero-defined with fewer than two (sections 3,
    7 d and 8).  [None] is a computation fault. *)
Definition aggregate (outcomes : list EchoOutcome) : option ProbeResult :=
  let n := length outcomes in
  let lost := lostCount outcomes in
  let rtts := successfulRtts outcomes in
  loss ← quotient (INR lost) n;
  mean ← (if Nat.ltb (length rtts) 1 then Some 0 else average rtts);
  stddev ← (if Nat.ltb (length rtts) 2 then Some 0 else populationStddev rtts);
  Some {| success := Nat.ltb lost n;
          loss_ratio := loss;
          rtt_mean_seconds := mean;
          rtt_stddev_seconds := stddev;
          samples := n |}.

End Aggregator.

(** ** Sample data *)

Definition gateway6 : item :=
  {| id := JNum (Int 7);
     type := JStr (lit "icmp");
     name := JStr (lit "gateway");
     target := JStr (lit "2001:db8::1");
     enabled := JBool true;
     scrape_profile := JStr (lit " 5s ");
     icmp_count := JNull;
     icmp_interval_ms := JNum (Int 250);
     icmp_timeout_ms := JUndefined;
     icmp_packet_size := JNum (Int 1200);
     icmp_df := JBool true |}.

Definition resolver4 : item :=
  {| id := JNum (Int 8);
     type := JStr (lit "icmp");
     name := JNull;
     target := JStr (lit "1.1.1.1");
     enabled := JBool false;
     scrape_profile := JStr (lit "2m");
     icmp_count := JNum (Int 10);
     icmp_interval_ms := JNull;
     icmp_timeout_ms := JNum (Int 500);
     icmp_packet_size := JNull;
     icmp_df := JUndefined |}.

(** A page as the HTML could give it, before the script runs. *)
Definition blankPage : Page :=
  {| currentType := [];
     editId := JUndefined;
     statusEl_textContent := [];
     statusEl_error := false;
     tabs := [(lit "http", true); (lit "tcp", false); (lit "dns", false); (lit "icmp", false)];
     sdLink_href := lit "/sd/http";
     hintEl_textContent := [];
     icmpConfigEl_hidden := true;
     nameInput_value := [];
     targetInput_value := [];
     scrapeProfileSelect_value := lit "15s";
     icmpCountInput_value := lit "4";
     icmpIntervalInput_value := lit "1000";
     icmpTimeoutInput_value := lit "1000";
     icmpPacketSizeInput_value := lit "56";
     icmpDfInput_checked := false;
     icmpDfInput_disabled := false;
     submitBtn_textContent := lit "Add";
     cancelEditBtn_hidden := true;
     checkboxes := [];
     tbody := [] |}.

(** The ICMP tab after load, with the two targets listed. *)
Definition icmpTab : Page :=
  run [TabClick (lit "icmp"); Rendered ByRefresh [gateway6; resolver4]]
      (boot blankPage).

(** The user typed a bracketed name after a blank into the target field. *)
Definition bracketTyped : Page := step (Input TargetField (lit " [x]")) icmpTab.

(** The user typed a bracketed IPv6 address after a blank. *)
Definition linkLocalTyped : Page :=
  step (Input TargetField (lit " [fe80::1]")) icmpTab.

(** An IPv4 target with DF set, and the first target as a submit of its
    effective values would store it. *)
Definition printer4 : item :=
  {| id := JNum (Int 9);
     type := JStr (lit "icmp");
     name := JStr (lit "printer");
     target := JStr (lit "192.168.1.20");
     enabled := JBool true;
     scrape_profile := JStr (lit "60s");
     icmp_count := JNum (Int 2);
     icmp_interval_ms := JNull;
     icmp_timeout_ms := JNull;
     icmp_packet_size := JNum (Int 1472);
     icmp_df := JBool true |}.

Definition gateway6Saved : item :=
  {| id := JNum (Int 7);
     type := JStr (lit "icmp");
     name := JStr (lit "gateway");
     target := JStr (lit "2001:db8::1");
     enabled := JBool true;
     scrape_profile := JStr (lit "5s");
     icmp_count := JNum (Int 4);
     icmp_interval_ms := JNum (Int 250);
     icmp_timeout_ms := JNum (Int 1000);
     icmp_packet_size := JNum (Int 1200);
     icmp_df := JBool true |}.

(** Responses: a list of no targets, a conflict the service explains in
    JSON, and an HTML error page of a proxy. *)
Definition emptyList : fetched :=
  Response true (Int 200) (Some (lit "application/json")) (inl (lit "[]"))
    (inl (JsonArr [])).

Definition conflict : fetched :=
  Response false (Int 409) (Some (lit "application/json; charset=utf-8"))
    (inl (lit "{" ++ [34%N] ++ lit "error" ++ [34%N] ++ lit ":" ++ [34%N]
          ++ lit "target already exists" ++ [34%N] ++ lit "}"))
    (inl (JsonObj [(lit "error", JsonStr (lit "target already exists"))])).

Definition badGateway : fetched :=
  Response false (Int 502) (Some (lit "text/html"))
    (inl (lit "<html><body>Bad Gateway</body></html>"))
    (inr (lit "Unexpected token <")).

(** The text of the engine's TypeError for an object without a primitive
    value. *)
Definition cannotConvert : jsstring := lit "Cannot convert object to primitive value".

(** Two runs of four echoes: two replies, and none. *)
Definition lossyRun : list EchoOutcome :=
  [Rtt (12 / 1000); TimedOut; Rtt (15 / 1000); SendError].

Definition deadRun : list EchoOutcome :=
  [TimedOut; SendError; TimedOut; TimedOut].

(* ===================================================================== *)
(** * Part II: theorems                                                    *)
(* ===================================================================== *)

(** ** Strings *)

Lemma strictEq_true (a b : jsstring) : strictEq a b = true <-> a = b.
Proof.
  revert b. induction a as [|x a IH]; intros [|y b]; simpl; try (split; congruence).
  rewrite andb_true_iff, N.eqb_eq, IH. split.
  - intros [-> ->]. reflexivity.
  - intros E. injection E. auto.
Qed.

Lemma strictEq_refl (a : jsstring) : strictEq a a = true.
Proof. apply strictEq_true. reflexivity. Qed.

Lemma array_includes_In (arr : list jsstring) (p : jsstring) :
  array_includes arr p = true <-> In p arr.
Proof.
  unfold array_includes. rewrite existsb_exists. split.
  - intros (q & Hq & E). apply strictEq_true in E. subst. exact Hq.
  - intros Hp. exists p. split; [exact Hp | apply strictEq_refl].
Qed.

Lemma startsWith_beginsWith (s p : jsstring) :
  startsWith s p = true <-> beginsWith p s.
Proof.
  unfold beginsWith. revert s. induction p as [|y p IH]; intros s; simpl.
  - split; [intros _; exists s; reflexivity | intros _; destruct s; reflexivity].
  - destruct s as [|x s]; cbn [startsWith].
    + split; [discriminate | intros (r & E); discriminate].
    + rewrite andb_true_iff, N.eqb_eq, IH. split.
      * intros (-> & r & ->). exists r. reflexivity.
      * intros (r & E). injection E as -> ->. split; [reflexivity | exists r; reflexivity].
Qed.

Lemma includes_occursIn (s sub : jsstring) :
  includes s sub = true <-> occursIn sub s.
Proof.
  unfold occursIn. induction s as [|x s IH].
  - cbn [includes]. rewrite orb_false_r, startsWith_beginsWith. split.
    + intros (r & E). exists [], r. exact E.
    + intros (a & b & E). destruct a as [|? a]; [exists b; exact E | discriminate].
  - cbn [includes]. rewrite orb_true_iff, startsWith_beginsWith, IH. split.
    + intros [(r & E) | (a & b & E)].
      * exists [], r. exact E.
      * exists (x :: a), b. rewrite E. reflexivity.
    + intros (a & b & E). destruct a as [|y a].
      * left. exists b. exact E.
      * right. injection E as _ E. exists a, b. exact E.
Qed.

Lemma occursIn_single (c : N) (s : jsstring) : occursIn [c] s <-> In c s.
Proof.
  unfold occursIn. split.
  - intros (a & b & ->). apply in_or_app. right. left. reflexivity.
  - intros Hin. apply in_split in Hin as (a & b & ->). exists a, b. reflexivity.
Qed.

(** [trimStart] removes a run of white space from the front. *)
Lemma trimStart_split (s : jsstring) :
  exists ws, s = ws ++ trimStart s /\ forallb isWhiteSpace ws = true.
Proof.
  induction s as [|c s (ws & E & W)]; simpl.
  - exists []. split; reflexivity.
  - destruct (isWhiteSpace c) eqn:Hc.
    + exists (c :: ws). simpl. rewrite Hc, W. split; [congruence | reflexivity].
    + exists []. split; reflexivity.
Qed.

Lemma trimEnd_split (s : jsstring) :
  exists ws, s = trimEnd s ++ ws /\ forallb isWhiteSpace ws = true.
Proof.
  unfold trimEnd. destruct (trimStart_split (rev s)) as (ws & E & W).
  exists (rev ws). split.
  - rewrite <- rev_app_distr, <- E, rev_involutive. reflexivity.
  - rewrite forallb_forall in *. intros c Hc. apply W. apply in_rev. exact Hc.
Qed.

(** [trim] removes white space at both ends and nothing else. *)
Lemma trim_split (s : jsstring) :
  exists front back,
    s = front ++ trim s ++ back
    /\ forallb isWhiteSpace front = true /\ forallb isWhiteSpace back = true.
Proof.
  unfold trim. destruct (trimStart_split s) as (front & E1 & W1).
  destruct (trimEnd_split (trimStart s)) as (back & E2 & W2).
  exists front, back. split; [|split; assumption].
  rewrite <- E2. exact E1.
Qed.

Lemma In_trim (c : N) (s : jsstring) :
  isWhiteSpace c = false -> (In c (trim s) <-> In c s).
Proof.
  intros Hc. destruct (trim_split s) as (front & back & E & W1 & W2).
  assert (Hno : forall ws, forallb isWhiteSpace ws = true -> ~ In c ws).
  { intros ws W Hin. rewrite forallb_forall in W. apply W in Hin. congruence. }
  split.
  - intros Hin. rewrite E. apply in_or_app. right. apply in_or_app. left. exact Hin.
  - intros Hin. rewrite E in Hin.
    apply in_app_or in Hin as [Hin | Hin]; [exfalso; exact (Hno _ W1 Hin)|].
    apply in_app_or in Hin as [Hin | Hin]; [exact Hin | exfalso; exact (Hno _ W2 Hin)].
Qed.

Lemma occursIn_single_trim (c : N) (s : jsstring) :
  isWhiteSpace c = false -> (occursIn [c] (trim s) <-> occursIn [c] s).
Proof. intros Hc. rewrite !occursIn_single. apply In_trim. exact Hc. Qed.

(** ** Effective values of a stored target *)

Section ScriptFacts.
Context `{JsNumber}.

Lemma toDOMString_or_empty (m : jsstring) :
  toDOMString (jsOr (JStr m) (JStr [])) = m.
Proof. destruct m; reflexivity. Qed.

(** Every cell the render loop writes in the scrape column is the
    effective profile of the row's item. *)
Lemma renderLoop_tdScrape (items : list item) (store : list bool) (rows : list trow) :
  (forall it checkbox tdName tdTarget tdScrape tdIcmp,
      In (TargetRow it checkbox tdName tdTarget tdScrape tdIcmp) rows ->
      tdScrape = effectiveScrapeProfile it) ->
  forall it checkbox tdName tdTarget tdScrape tdIcmp,
    In (TargetRow it checkbox tdName tdTarget tdScrape tdIcmp)
       (snd (renderLoop items store rows)) ->
    tdScrape = effectiveScrapeProfile it.
Proof.
  revert store rows. induction items as [|i items IH]; intros store rows Hrows; simpl.
  - exact Hrows.
  - apply IH. intros it cb a b c d Hin. apply in_app_or in Hin as [Hin | Hin].
    + exact (Hrows _ _ _ _ _ _ Hin).
    + destruct Hin as [E | []]. injection E as <- _ _ _ <- _. reflexivity.
Qed.

Lemma renderRows_tdScrape (items : list item) (s : Page)
    (it : item) (checkbox : nat) (tdName tdTarget tdScrape tdIcmp : jsstring) :
  In (TargetRow it checkbox tdName tdTarget tdScrape tdIcmp) (tbody (renderRows items s)) ->
  tdScrape = effectiveScrapeProfile it.
Proof.
  unfold renderRows. destruct items as [|i items].
  - simpl. intros [E | []]. discriminate.
  - pose proof (renderLoop_tdScrape (i :: items) (checkboxes s) []) as Hloop.
    destruct (renderLoop (i :: items) (checkboxes s) []) as [store rows].
    simpl in *. apply Hloop. intros ? ? ? ? ? ? [].
Qed.

Lemma editClick_scrapeProfile (it : item) (s : Page) :
  scrapeProfileSelect_value (editClick it s) = effectiveScrapeProfile it.
Proof.
  unfold editClick, updateIcmpDfAvailability. cbv zeta.
  match goal with |- context [if ?c then _ else _] => destruct c end; reflexivity.
Qed.

Lemma storedProfile_unfold (it : item) :
  storedProfile it
  = trim (if isNullish (scrape_profile it) then [] else ToString (scrape_profile it)).
Proof. unfold storedProfile. destruct (scrape_profile it); reflexivity. Qed.

Lemma effectiveScrapeProfile_cases (it : item) :
  (In (storedProfile it) SCRAPE_PROFILES /\ effectiveScrapeProfile it = storedProfile it)
  \/ (~ In (storedProfile it) SCRAPE_PROFILES
      /\ effectiveScrapeProfile it = DEFAULT_SCRAPE_PROFILE).
Proof.
  unfold effectiveScrapeProfile. cbv zeta. rewrite <- storedProfile_unfold.
  destruct (array_includes SCRAPE_PROFILES (storedProfile it)) eqn:Hin.
  - left. split; [apply array_includes_In, Hin | reflexivity].
  - right. split; [| reflexivity].
    intros Hp. apply array_includes_In in Hp. congruence.
Qed.

(** C9: the effective scrape profile of every stored target is one of
    "1s", "5s", "15s", "60s": it is the stored profile (null read as empty,
    white space trimmed) when that is one of the four, and the default
    "15s" otherwise.  It is what the table shows in the row of the target
    and what an edit loads into the form. *)
Theorem effectiveScrapeProfile_in_profiles (it : item) :
  In (effectiveScrapeProfile it) [lit "1s"; lit "5s"; lit "15s"; lit "60s"]
  /\ (In (storedProfile it) [lit "1s"; lit "5s"; lit "15s"; lit "60s"] ->
      effectiveScrapeProfile it = storedProfile it)
  /\ (~ In (storedProfile it) [lit "1s"; lit "5s"; lit "15s"; lit "60s"] ->
      effectiveScrapeProfile it = lit "15s")
  /\ (forall items s checkbox tdName tdTarget tdScrape tdIcmp,
         In (TargetRow it checkbox tdName tdTarget tdScrape tdIcmp)
            (tbody (renderRows items s)) ->
         tdScrape = effectiveScrapeProfile it)
  /\ (forall s, scrapeProfileSelect_value (editClick it s) = effectiveScrapeProfile it).
Proof.
  change [lit "1s"; lit "5s"; lit "15s"; lit "60s"] with SCRAPE_PROFILES.
  change (lit "15s") with DEFAULT_SCRAPE_PROFILE.
  split; [| split; [| split; [| split]]].
  - destruct (effectiveScrapeProfile_cases it) as [(Hin & ->) | (_ & ->)].
    + exact Hin.
    + right. right. left. reflexivity.
  - intros Hin. destruct (effectiveScrapeProfile_cases it) as [(_ & E) | (Hnot & _)];
      [exact E | contradiction].
  - intros Hnot. destruct (effectiveScrapeProfile_cases it) as [(Hin & _) | (_ & E)];
      [contradiction | exact E].
  - intros items s checkbox tdName tdTarget tdScrape tdIcmp.
    apply renderRows_tdScrape.
  - apply editClick_scrapeProfile.
Qed.

(** C3: every ICMP parameter that is null or undefined on a stored target
    takes its default (count 4, interval_ms 1000, timeout_ms 1000,
    packet_size 56, df false); a parameter that is present, a number or for
    df a boolean, is the effective value as it is.  (A present value goes
    through [Number], for df through [Boolean], which leave numbers and
    booleans as they are.) *)
Theorem effectiveIcmp_defaults (it : item) :
  let cfg := effectiveIcmp it in
  (isNullish (icmp_count it) = true -> count cfg = of_Z 4)
  /\ (isNullish (icmp_interval_ms it) = true -> interval_ms cfg = of_Z 1000)
  /\ (isNullish (icmp_timeout_ms it) = true -> timeout_ms cfg = of_Z 1000)
  /\ (isNullish (icmp_packet_size it) = true -> packet_size cfg = of_Z 56)
  /\ (isNullish (icmp_df it) = true -> df cfg = false)
  /\ (forall n, icmp_count it = JNum n -> count cfg = n)
  /\ (forall n, icmp_interval_ms it = JNum n -> interval_ms cfg = n)
  /\ (forall n, icmp_timeout_ms it = JNum n -> timeout_ms cfg = n)
  /\ (forall n, icmp_packet_size it = JNum n -> packet_size cfg = n)
  /\ (forall b, icmp_df it = JBool b -> df cfg = b)
  /\ (isNullish (icmp_count it) = false -> count cfg = Number (icmp_count it))
  /\ (isNullish (icmp_interval_ms it) = false ->
      interval_ms cfg = Number (icmp_interval_ms it))
  /\ (isNullish (icmp_timeout_ms it) = false ->
      timeout_ms cfg = Number (icmp_timeout_ms it))
  /\ (isNullish (icmp_packet_size it) = false ->
      packet_size cfg = Number (icmp_packet_size it))
  /\ (isNullish (icmp_df it) = false -> df cfg = Boolean (icmp_df it)).
Proof.
  cbv zeta. unfold effectiveIcmp. cbn [count interval_ms timeout_ms packet_size df].
  repeat split; try (intros ->; reflexivity); intros v ->; reflexivity.
Qed.

End ScriptFacts.

Lemma effectiveScrapeProfile_in_profiles_witness :
  effectiveScrapeProfile gateway6 = lit "5s"
  /\ effectiveScrapeProfile resolver4 = lit "15s".
Proof.
  split.
  - refine (eq_trans
              (proj1 (proj2 (effectiveScrapeProfile_in_profiles gateway6)) _) _).
    + vm_compute. right. left. reflexivity.
    + reflexivity.
  - apply (proj2 (proj2 (effectiveScrapeProfile_in_profiles resolver4))).
    vm_compute. intuition discriminate.
Defined.

Lemma effectiveIcmp_defaults_witness :
  count (effectiveIcmp gateway6) = Int 4
  /\ interval_ms (effectiveIcmp gateway6) = Int 250
  /\ df (effectiveIcmp gateway6) = true
  /\ df (effectiveIcmp resolver4) = false.
Proof.
  destruct (effectiveIcmp_defaults gateway6)
    as (Gcount & _ & _ & _ & _ & _ & Ginterval & _ & _ & Gdf & _).
  destruct (effectiveIcmp_defaults resolver4)
    as (_ & _ & _ & _ & Rdf & _).
  split; [|split; [|split]].
  - exact (Gcount eq_refl).
  - exact (Ginterval _ eq_refl).
  - exact (Gdf _ eq_refl).
  - exact (Rdf eq_refl).
Defined.

(** ** The DF checkbox and IPv6 targets *)

Section FormFacts.
Context `{JsNumber}.

Lemma ToString_or_empty (m : jsstring) :
  ToString (jsOr (JStr m) (JStr [])) = m.
Proof. destruct m; reflexivity. Qed.

Lemma looksLikeIpv6_spec (v : jsstring) :
  looksLikeIpv6 v = true
  <-> occursIn (lit ":") v
      \/ (beginsWith (lit "[") (trim v) /\ occursIn (lit "]") v).
Proof.
  unfold looksLikeIpv6. cbv zeta. rewrite ToString_or_empty.
  rewrite orb_true_iff, andb_true_iff, !includes_occursIn, startsWith_beginsWith.
  change (lit ":") with [58%N]. change (lit "]") with [93%N].
  rewrite !occursIn_single_trim by reflexivity. reflexivity.
Qed.

Lemma updateIcmpDfAvailability_icmp (s : Page) :
  currentType s = lit "icmp" ->
  icmpDfInput_disabled (updateIcmpDfAvailability s) = looksLikeIpv6 (targetInput_value s)
  /\ icmpDfInput_checked (updateIcmpDfAvailability s)
     = (if looksLikeIpv6 (targetInput_value s) then false else icmpDfInput_checked s)
  /\ currentType (updateIcmpDfAvailability s) = currentType s
  /\ targetInput_value (updateIcmpDfAvailability s) = targetInput_value s.
Proof.
  intros E. unfold updateIcmpDfAvailability. rewrite E, strictEq_refl. simpl.
  repeat split; reflexivity.
Qed.

Lemma updateIcmpDfAvailability_fields (s : Page) :
  currentType (updateIcmpDfAvailability s) = currentType s
  /\ targetInput_value (updateIcmpDfAvailability s) = targetInput_value s.
Proof.
  unfold updateIcmpDfAvailability.
  destruct (negb (strictEq (currentType s) (lit "icmp"))); split; reflexivity.
Qed.

(** Whatever the page was, [updateIcmpDfAvailability] leaves it with DF
    forced off for an IPv6 target. *)
Lemma updateIcmpDfAvailability_forces (s : Page) :
  dfForcedOff (updateIcmpDfAvailability s).
Proof.
  destruct (updateIcmpDfAvailability_fields s) as (Ec & Et).
  intros Hc Hv. rewrite Ec in Hc. rewrite Et in Hv.
  destruct (updateIcmpDfAvailability_icmp s Hc) as (Ed & Ek & _).
  rewrite Ed, Ek, Hv. split; reflexivity.
Qed.

(** A turn that leaves the tab, the target field and the DF checkbox alone
    keeps the property. *)
Lemma dfForcedOff_same (s s' : Page) :
  currentType s' = currentType s ->
  targetInput_value s' = targetInput_value s ->
  icmpDfInput_checked s' = icmpDfInput_checked s ->
  icmpDfInput_disabled s' = icmpDfInput_disabled s ->
  dfForcedOff s -> dfForcedOff s'.
Proof.
  unfold dfForcedOff. intros -> -> -> ->. auto.
Qed.

Lemma dfForcedOff_setStatus (m k : jsstring) (s : Page) :
  dfForcedOff s -> dfForcedOff (setStatus m k s).
Proof. apply dfForcedOff_same; reflexivity. Qed.

Lemma dfForcedOff_renderRows (items : list item) (s : Page) :
  dfForcedOff s -> dfForcedOff (renderRows items s).
Proof.
  apply dfForcedOff_same; unfold renderRows;
    destruct items; [| destruct (renderLoop _ _ _) | | destruct (renderLoop _ _ _)
                     | | destruct (renderLoop _ _ _) | | destruct (renderLoop _ _ _)];
    reflexivity.
Qed.

Lemma dfForcedOff_flipCheckbox (checkbox : nat) (s : Page) :
  dfForcedOff s -> dfForcedOff (flipCheckbox checkbox s).
Proof.
  apply dfForcedOff_same; unfold flipCheckbox;
    destruct (checkboxes s !! checkbox); reflexivity.
Qed.

Lemma dfForcedOff_typeInto (f : field) (v : jsstring) (s : Page) :
  f <> TargetField -> dfForcedOff s -> dfForcedOff (typeInto f v s).
Proof.
  intros Hf. apply dfForcedOff_same; destruct f; try reflexivity; contradiction.
Qed.

(** A click on the DF checkbox cannot check it while it is disabled. *)
Lemma dfForcedOff_clickDf (s : Page) :
  dfForcedOff s -> dfForcedOff (clickDf s).
Proof.
  unfold clickDf. destruct (icmpDfInput_disabled s) eqn:Hd; [auto|].
  unfold dfForcedOff. simpl. intros Inv Hc Hv.
  destruct (Inv Hc Hv) as (_ & Hdis). congruence.
Qed.

Lemma dfForcedOff_step (e : event) (s : Page) :
  dfForcedOff s -> dfForcedOff (step e s).
Proof.
  intros Inv. destruct e as [f v| |ty|row| | | |row|row confirmed|o|o items|o message];
    cbn [step].
  - destruct f; try (apply dfForcedOff_typeInto; [discriminate | exact Inv]).
    apply updateIcmpDfAvailability_forces.
  - apply dfForcedOff_clickDf, Inv.
  - apply updateIcmpDfAvailability_forces.
  - destruct (tbody s !! row) as [[|it ? ? ? ? ?]|]; try exact Inv.
    apply dfForcedOff_setStatus, updateIcmpDfAvailability_forces.
  - apply dfForcedOff_setStatus, updateIcmpDfAvailability_forces.
  - exact Inv.
  - unfold submitStart. destruct (isNullish (editId s));
      apply dfForcedOff_setStatus, Inv.
  - destruct (tbody s !! row) as [[|it ? ? ? ? ?]|]; try exact Inv.
    apply dfForcedOff_setStatus, dfForcedOff_flipCheckbox, Inv.
  - destruct (tbody s !! row) as [[|it ? ? ? ? ?]|]; try exact Inv.
    destruct confirmed; [apply dfForcedOff_setStatus|]; exact Inv.
  - destruct o; try exact Inv. apply updateIcmpDfAvailability_forces.
  - destruct o; try apply dfForcedOff_setStatus; apply dfForcedOff_renderRows, Inv.
  - destruct o; apply dfForcedOff_setStatus;
      try apply dfForcedOff_flipCheckbox; exact Inv.
Qed.

Lemma dfForcedOff_run (events : list event) (s : Page) :
  dfForcedOff s -> dfForcedOff (run events s).
Proof.
  unfold run. revert s. induction events as [|e events IH]; intros s Inv; simpl.
  - exact Inv.
  - apply IH, dfForcedOff_step, Inv.
Qed.

Lemma dfForcedOff_boot (html : Page) : dfForcedOff (boot html).
Proof. apply updateIcmpDfAvailability_forces. Qed.

Lemma submitRequest_icmp_df (s : Page) :
  currentType s = lit "icmp" ->
  prop "icmp_df" (bodyOf (submitRequest s)) = Some (JBool (icmpDfInput_checked s)).
Proof.
  intros E. unfold submitRequest, submitBody. rewrite E, strictEq_refl.
  destruct (isNullish (editId s)); reflexivity.
Qed.

(** C1: in every state the page reaches from its load, through any
    sequence of turns (typing, switching tabs, starting or cancelling an
    edit, submitting, responses arriving), an ICMP target that is detected
    as an IPv6 literal has its DF checkbox unchecked and disabled, and the
    request a submit sends carries [icmp_df = false]. *)
Theorem df_forced_off_for_ipv6 (html : Page) (events : list event) :
  let s := run events (boot html) in
  currentType s = lit "icmp" ->
  looksLikeIpv6 (targetInput_value s) = true ->
  icmpDfInput_checked s = false
  /\ icmpDfInput_disabled s = true
  /\ prop "icmp_df" (bodyOf (submitRequest s)) = Some (JBool false).
Proof.
  intros s Hc Hv. subst s.
  destruct (dfForcedOff_run events (boot html) (dfForcedOff_boot html) Hc Hv)
    as (Hk & Hd).
  split; [exact Hk | split; [exact Hd |]].
  rewrite submitRequest_icmp_df by exact Hc. rewrite Hk. reflexivity.
Qed.

(** C2, amended: a target string is classified as an IPv6 literal exactly
    when, once the white space around it is trimmed, it contains a colon, or
    starts with an opening bracket and contains a closing one.  On the ICMP
    tab the DF checkbox is disabled (and unchecked) for exactly these
    strings; for every other string it stays enabled, its state untouched. *)
Theorem updateIcmpDfAvailability_classifies (s : Page) :
  currentType s = lit "icmp" ->
  let v := targetInput_value s in
  let s' := updateIcmpDfAvailability s in
  (looksLikeIpv6 v = true
   <-> occursIn (lit ":") v
       \/ (beginsWith (lit "[") (trim v) /\ occursIn (lit "]") v))
  /\ icmpDfInput_disabled s' = looksLikeIpv6 v
  /\ (looksLikeIpv6 v = true -> icmpDfInput_checked s' = false)
  /\ (looksLikeIpv6 v = false ->
      icmpDfInput_disabled s' = false
      /\ icmpDfInput_checked s' = icmpDfInput_checked s).
Proof.
  intros Hc v s'. subst v s'.
  destruct (updateIcmpDfAvailability_icmp s Hc) as (Ed & Ek & _).
  split; [apply looksLikeIpv6_spec | split; [exact Ed | split]].
  - intros Hv. rewrite Ek, Hv. reflexivity.
  - intros Hv. rewrite Ed, Ek, Hv. split; reflexivity.
Qed.

(** *** The "enabled" checkboxes *)

Lemma checkboxes_updateIcmpDfAvailability (s : Page) :
  checkboxes (updateIcmpDfAvailability s) = checkboxes s.
Proof.
  unfold updateIcmpDfAvailability.
  destruct (negb (strictEq (currentType s) (lit "icmp"))); reflexivity.
Qed.

Lemma renderLoop_store (items : list item) (store : list bool) (rows : list trow) :
  fst (renderLoop items store rows)
  = store ++ List.map (fun it => Boolean (enabled it)) items.
Proof.
  revert store rows. induction items as [|it items IH]; intros store rows; simpl.
  - rewrite app_nil_r. reflexivity.
  - rewrite IH, <- app_assoc. reflexivity.
Qed.

(** Rendering creates checkboxes; it never touches an existing one. *)
Lemma renderRows_keeps (items : list item) (s : Page) (checkbox : nat) (b : bool) :
  checkboxes s !! checkbox = Some b ->
  checkboxes (renderRows items s) !! checkbox = Some b.
Proof.
  intros Hb. unfold renderRows. destruct items as [|it items]; [exact Hb|].
  pose proof (renderLoop_store (it :: items) (checkboxes s) []) as Hstore.
  destruct (renderLoop (it :: items) (checkboxes s) []) as [store rows].
  simpl in Hstore. cbn [checkboxes]. rewrite Hstore.
  apply lookup_app_l_Some, Hb.
Qed.

Lemma flipCheckbox_other (other checkbox : nat) (s : Page) :
  other <> checkbox ->
  checkboxes (flipCheckbox other s) !! checkbox = checkboxes s !! checkbox.
Proof.
  intros Hne. unfold flipCheckbox. destruct (checkboxes s !! other); [| reflexivity].
  cbn [withCheckboxes checkboxes]. apply list_lookup_insert_ne, Hne.
Qed.

Lemma flipCheckbox_same (checkbox : nat) (s : Page) (b : bool) :
  checkboxes s !! checkbox = Some b ->
  checkboxes (flipCheckbox checkbox s) = <[checkbox := negb b]> (checkboxes s)
  /\ tbody (flipCheckbox checkbox s) = tbody s.
Proof.
  intros Hb. unfold flipCheckbox. rewrite Hb. split; reflexivity.
Qed.

Lemma step_keeps_checkbox (e : event) (s : Page) (checkbox : nat) (b : bool) :
  leavesCheckbox checkbox e s ->
  checkboxes s !! checkbox = Some b ->
  checkboxes (step e s) !! checkbox = Some b.
Proof.
  intros Hquiet Hb.
  destruct e as [f v| |ty|row| | | |row|row confirmed|o|o items|o message];
    cbn [step leavesCheckbox] in *.
  - destruct f; try exact Hb.
    rewrite checkboxes_updateIcmpDfAvailability. exact Hb.
  - unfold clickDf. destruct (icmpDfInput_disabled s); exact Hb.
  - unfold setType. rewrite checkboxes_updateIcmpDfAvailability. exact Hb.
  - destruct (tbody s !! row) as [[|it ? ? ? ? ?]|]; try exact Hb.
    unfold editClick. cbn [setStatus checkboxes].
    rewrite checkboxes_updateIcmpDfAvailability. exact Hb.
  - unfold cancelEdit. cbn [setStatus checkboxes].
    rewrite checkboxes_updateIcmpDfAvailability. exact Hb.
  - exact Hb.
  - unfold submitStart. destruct (isNullish (editId s)); exact Hb.
  - destruct (tbody s !! row) as [[|it other ? ? ? ?]|]; try exact Hb.
    cbn [setStatus checkboxes]. rewrite flipCheckbox_other; assumption.
  - destruct (tbody s !! row) as [[|it ? ? ? ? ?]|]; try exact Hb.
    destruct confirmed; exact Hb.
  - destruct o; try exact Hb. unfold submitAccepted.
    rewrite checkboxes_updateIcmpDfAvailability. exact Hb.
  - destruct o; cbn [setStatus checkboxes]; apply renderRows_keeps, Hb.
  - destruct o as [| |other|]; cbn [setStatus checkboxes]; try exact Hb.
    rewrite flipCheckbox_other; assumption.
Qed.

Lemma run_keeps_checkbox (events : list event) (s : Page) (checkbox : nat) (b : bool) :
  quietFor checkbox events s ->
  checkboxes s !! checkbox = Some b ->
  checkboxes (run events s) !! checkbox = Some b.
Proof.
  unfold run. revert s. induction events as [|e events IH]; intros s Hquiet Hb.
  - exact Hb.
  - destruct Hquiet as (He & Hrest). cbn [fold_left].
    apply IH; [exact Hrest | apply step_keeps_checkbox; assumption].
Qed.

(** C10: when the user toggles the "enabled" checkbox of a row, the
    listener sends a PATCH with the new state; if that request fails, then,
    whatever turns ran in between that left this checkbox alone, the
    checkbox is back in the state it had before the click and the status
    line shows the error message with the error class; the failure leaves
    the table as it is. *)
Theorem enabled_toggle_reverted_on_failure
    (s : Page) (row checkbox : nat) (it : item)
    (tdName tdTarget tdScrape tdIcmp message : jsstring) (before : bool)
    (between : list event) :
  tbody s !! row = Some (TargetRow it checkbox tdName tdTarget tdScrape tdIcmp) ->
  checkboxes s !! checkbox = Some before ->
  let clicked := step (EnabledClick row) s in
  quietFor checkbox between clicked ->
  let failed := step (Rejected (ByToggle checkbox) message) (run between clicked) in
  requests (EnabledClick row) s
    = [PATCH_target (id it) [("enabled"%string, JBool (negb before))]]
  /\ checkboxes clicked !! checkbox = Some (negb before)
  /\ checkboxes failed !! checkbox = Some before
  /\ tbody failed = tbody (run between clicked)
  /\ statusEl_textContent failed = message
  /\ statusEl_error failed = true.
Proof.
  intros Hrow Hbox clicked Hquiet failed.
  assert (Hlt : checkbox < length (checkboxes s)).
  { apply lookup_lt_is_Some. eauto. }
  assert (Hclicked : checkboxes clicked !! checkbox = Some (negb before)).
  { subst clicked. cbn [step]. rewrite Hrow. cbn [setStatus checkboxes].
    destruct (flipCheckbox_same checkbox s before Hbox) as (-> & _).
    apply list_lookup_insert_eq, Hlt. }
  pose proof (run_keeps_checkbox between clicked checkbox _ Hquiet Hclicked) as Hrun.
  destruct (flipCheckbox_same checkbox (run between clicked) _ Hrun) as (Hstore & Htbody).
  subst failed. cbn [step requests]. rewrite Hrow, Hbox.
  cbn [setStatus checkboxes tbody statusEl_textContent statusEl_error].
  rewrite Hstore, Htbody, negb_involutive, toDOMString_or_empty.
  split; [reflexivity | split; [exact Hclicked | split]].
  - apply list_lookup_insert_eq. apply lookup_lt_is_Some. eauto.
  - split; [reflexivity | split; [reflexivity | apply strictEq_refl]].
Qed.

End FormFacts.

(** *** The script on concrete pages *)

Example parseInteger_ex : parseInteger (lit " -12 ") = Int (-12).
Proof. reflexivity. Qed.

Example printInteger_ex : printInteger (Int 1000) = lit "1000".
Proof. reflexivity. Qed.

Example looksLikeIpv6_ex :
  looksLikeIpv6 (lit "1.1.1.1") = false
  /\ looksLikeIpv6 (lit "example.com") = false
  /\ looksLikeIpv6 (lit " 2001:db8::1 ") = true
  /\ looksLikeIpv6 (lit "[gateway]") = true
  /\ looksLikeIpv6 (lit "[gateway") = false
  /\ looksLikeIpv6 (lit "gateway]") = false.
Proof. repeat split; reflexivity. Qed.

(** The table of the ICMP tab: the stored profile of the first target is
    trimmed, the unknown profile of the second falls back, and the ICMP
    cell shows defaults where the target stores none. *)
Example icmpTab_rows :
  tbody icmpTab
  = [TargetRow gateway6 0 (lit "gateway") (lit "2001:db8::1") (lit "5s")
       (lit "count=4 interval=250ms timeout=1000ms size=1200 df=on");
     TargetRow resolver4 1 [] (lit "1.1.1.1") (lit "15s")
       (lit "count=10 interval=1000ms timeout=500ms size=56 df=off")].
Proof. reflexivity. Qed.

(** Checking DF for an IPv4 target, then typing a colon: the box is
    cleared and disabled; it stays cleared when the colon is removed. *)
Example df_cleared_by_typing :
  icmpDfInput_checked (run [Input TargetField (lit "10.0.0.1"); DfClick] icmpTab) = true
  /\ icmpDfInput_checked
       (run [Input TargetField (lit "10.0.0.1"); DfClick;
             Input TargetField (lit "10.0.0.1:")] icmpTab) = false
  /\ icmpDfInput_disabled
       (run [Input TargetField (lit "10.0.0.1"); DfClick;
             Input TargetField (lit "10.0.0.1:")] icmpTab) = true
  /\ icmpDfInput_checked
       (run [Input TargetField (lit "10.0.0.1"); DfClick;
             Input TargetField (lit "10.0.0.1:"); DfClick;
             Input TargetField (lit "10.0.0.1")] icmpTab) = false.
Proof. repeat split; reflexivity. Qed.

(** The request of a submit while editing the IPv6 target. *)
Example submit_while_editing :
  submitRequest (run [EditClick 0] icmpTab)
  = PATCH_target (JNum (Int 7))
      [("name", JStr (lit "gateway"));
       ("target", JStr (lit "2001:db8::1"));
       ("scrape_profile", JStr (lit "5s"));
       ("icmp_count", JNum (Int 4));
       ("icmp_interval_ms", JNum (Int 250));
       ("icmp_timeout_ms", JNum (Int 1000));
       ("icmp_packet_size", JNum (Int 1200));
       ("icmp_df", JBool false)]%string.
Proof. reflexivity. Qed.

Lemma df_forced_off_for_ipv6_witness :
  targetInput_value (run [EditClick 0] icmpTab) = lit "2001:db8::1"
  /\ icmpDfInput_checked (run [EditClick 0] icmpTab) = false
  /\ icmpDfInput_disabled (run [EditClick 0] icmpTab) = true
  /\ prop "icmp_df" (bodyOf (submitRequest (run [EditClick 0] icmpTab)))
     = Some (JBool false).
Proof.
  split; [reflexivity |].
  apply (df_forced_off_for_ipv6 blankPage
           [TabClick (lit "icmp"); Rendered ByRefresh [gateway6; resolver4];
            EditClick 0]).
  - vm_compute. reflexivity.
  - vm_compute. reflexivity.
Defined.

(** C2 as stated fails on a bracketed target typed after a blank: the
    string does not start with the bracket and holds no colon, yet the
    script classifies it as IPv6 and disables DF. *)
Lemma specIpv6Literal_counterexample :
  targetInput_value bracketTyped = lit " [x]"
  /\ ~ specIpv6Literal (lit " [x]")
  /\ looksLikeIpv6 (lit " [x]") = true
  /\ currentType bracketTyped = lit "icmp"
  /\ icmpDfInput_disabled bracketTyped = true.
Proof.
  split; [reflexivity | split; [| repeat split; reflexivity]].
  intros [Hcolon | [(rest & Hb) _]].
  - change (lit ":") with [58%N] in Hcolon. apply occursIn_single in Hcolon.
    vm_compute in Hcolon. intuition discriminate.
  - vm_compute in Hb. discriminate.
Qed.

Lemma updateIcmpDfAvailability_classifies_witness :
  icmpDfInput_disabled (updateIcmpDfAvailability linkLocalTyped) = true
  /\ icmpDfInput_checked (updateIcmpDfAvailability linkLocalTyped) = false.
Proof.
  destruct (updateIcmpDfAvailability_classifies linkLocalTyped)
    as (_ & Hdisabled & Hchecked & _).
  - vm_compute. reflexivity.
  - split; [rewrite Hdisabled | apply Hchecked]; vm_compute; reflexivity.
Defined.

Lemma enabled_toggle_reverted_on_failure_witness :
  checkboxes icmpTab = [true; false]
  /\ checkboxes (step (EnabledClick 1) icmpTab) = [true; true]
  /\ checkboxes
       (step (Rejected (ByToggle 1) (lit "HTTP 500"))
          (run [Input NameField (lit "dns"); EnabledClick 0]
             (step (EnabledClick 1) icmpTab)))
     !! 1%nat = Some false
  /\ statusEl_textContent
       (step (Rejected (ByToggle 1) (lit "HTTP 500"))
          (run [Input NameField (lit "dns"); EnabledClick 0]
             (step (EnabledClick 1) icmpTab)))
     = lit "HTTP 500"
  /\ statusEl_error
       (step (Rejected (ByToggle 1) (lit "HTTP 500"))
          (run [Input NameField (lit "dns"); EnabledClick 0]
             (step (EnabledClick 1) icmpTab)))
     = true.
Proof.
  split; [reflexivity | split; [reflexivity |]].
  destruct (enabled_toggle_reverted_on_failure icmpTab 1 1 resolver4
              [] (lit "1.1.1.1") (lit "15s")
              (lit "count=10 interval=1000ms timeout=500ms size=56 df=off")
              (lit "HTTP 500") false
              [Input NameField (lit "dns"); EnabledClick 0])
    as (_ & _ & Hbox & _ & Htext & Herr).
  - vm_compute. reflexivity.
  - vm_compute. reflexivity.
  - vm_compute. split; [exact I | split; [discriminate | exact I]].
  - split; [exact Hbox | split; [exact Htext | exact Herr]].
Defined.

(** ** The statistics aggregator *)

Section AggregatorFacts.
Local Open Scope R_scope.

Lemma lost_plus_replies (outcomes : list EchoOutcome) :
  (lostCount outcomes + successfulReplies outcomes = length outcomes)%nat.
Proof.
  unfold lostCount, successfulReplies.
  induction outcomes as [|[r| |] rest IH]; simpl; lia.
Qed.

Lemma lostCount_le (outcomes : list EchoOutcome) :
  (lostCount outcomes <= length outcomes)%nat.
Proof. pose proof (lost_plus_replies outcomes). lia. Qed.

Lemma successfulReplies_pos (outcomes : list EchoOutcome) :
  (0 < successfulReplies outcomes)%nat <-> exists rtt, In (Rtt rtt) outcomes.
Proof.
  unfold successfulReplies. induction outcomes as [|[r| |] rest IH]; simpl.
  - split; [lia | intros (rtt & [])].
  - split; [intros _; exists r; left; reflexivity | lia].
  - rewrite IH. split; intros (rtt & Hin); exists rtt; [right; exact Hin|].
    destruct Hin as [Hin | Hin]; [discriminate | exact Hin].
  - rewrite IH. split; intros (rtt & Hin); exists rtt; [right; exact Hin|].
    destruct Hin as [Hin | Hin]; [discriminate | exact Hin].
Qed.

Lemma total_squares_nonneg (m : R) (xs : list R) :
  0 <= total (List.map (fun x => (x - m) * (x - m)) xs).
Proof.
  induction xs as [|x xs IH]; simpl.
  - lra.
  - pose proof (Rle_0_sqr (x - m)) as Hsq. unfold Rsqr in Hsq. lra.
Qed.

Lemma quotient_nonneg (a : R) (n : nat) (q : R) :
  0 <= a -> quotient a n = Some q -> 0 <= q.
Proof.
  intros Ha. destruct n as [|n]; [discriminate|]. intros [= <-].
  apply Rmult_le_pos; [exact Ha|].
  left. apply Rinv_0_lt_compat. change (0 < INR (S n)). apply lt_0_INR. lia.
Qed.

Lemma squareRoot_defined (v : R) :
  0 <= v -> squareRoot v = Some (sqrt v).
Proof.
  intros Hv. unfold squareRoot. destruct (Rle_dec 0 v); [reflexivity | contradiction].
Qed.

(** The deviation of a non-empty sample exists and is not negative. *)
Lemma populationStddev_defined (xs : list R) :
  xs <> [] -> exists sd, populationStddev xs = Some sd /\ 0 <= sd.
Proof.
  intros Hne. unfold populationStddev, average.
  destruct xs as [|x xs]; [contradiction|].
  cbn [length quotient]. cbn [mbind option_bind].
  set (m := total (x :: xs) / INR (S (length xs))).
  set (v := total (List.map _ (x :: xs)) / INR (S (length xs))).
  assert (Hv : 0 <= v).
  { apply (quotient_nonneg (total (List.map (fun y => (y - m) * (y - m)) (x :: xs)))
                            (S (length xs)));
      [apply total_squares_nonneg | reflexivity]. }
  exists (sqrt v). split; [apply squareRoot_defined, Hv | apply sqrt_pos].
Qed.

(** Without its guards the arithmetic faults on an empty sample, and gives
    0 on a single one. *)
Lemma populationStddev_nil : populationStddev [] = None.
Proof. reflexivity. Qed.

Lemma populationStddev_single (x : R) : populationStddev [x] = Some 0.
Proof.
  unfold populationStddev, average. cbn [length quotient total fold_right List.map].
  cbn [mbind option_bind].
  replace ((x - (x + 0) / INR 1) * (x - (x + 0) / INR 1) + 0) with 0
    by (simpl; field).
  replace (0 / INR 1) with 0 by (simpl; field).
  rewrite squareRoot_defined by lra. rewrite sqrt_0. reflexivity.
Qed.

(** A run of at least one echo always has a result; its fields are the
    ones below. *)
Lemma aggregate_defined (outcomes : list EchoOutcome) :
  (1 <= length outcomes)%nat ->
  exists mean sd,
    aggregate outcomes
    = Some {| success := Nat.ltb (lostCount outcomes) (length outcomes);
              loss_ratio := INR (lostCount outcomes) / INR (length outcomes);
              rtt_mean_seconds := mean;
              rtt_stddev_seconds := sd;
              samples := length outcomes |}
    /\ 0 <= sd
    /\ ((successfulReplies outcomes < 2)%nat -> sd = 0)
    /\ (successfulReplies outcomes = 0%nat -> mean = 0).
Proof.
  intros Hn. unfold aggregate. cbv zeta. fold (successfulReplies outcomes).
  destruct (length outcomes) as [|n] eqn:Hlen; [lia|].
  cbn [quotient]. cbn [mbind option_bind].
  assert (Hmean : exists mean,
             (if Nat.ltb (successfulReplies outcomes) 1 then Some 0
              else average (successfulRtts outcomes)) = Some mean
             /\ (successfulReplies outcomes = 0%nat -> mean = 0)).
  { destruct (Nat.ltb_spec (successfulReplies outcomes) 1) as [Hlt | Hge].
    - exists 0. split; [reflexivity | reflexivity].
    - unfold average. fold (successfulReplies outcomes).
      destruct (successfulReplies outcomes) as [|k]; [lia|].
      eexists. split; [reflexivity | discriminate]. }
  assert (Hsd : exists sd,
             (if Nat.ltb (successfulReplies outcomes) 2 then Some 0
              else populationStddev (successfulRtts outcomes)) = Some sd
             /\ 0 <= sd
             /\ ((successfulReplies outcomes < 2)%nat -> sd = 0)).
  { destruct (Nat.ltb_spec (successfulReplies outcomes) 2) as [Hlt | Hge].
    - exists 0. split; [reflexivity | split; [lra | reflexivity]].
    - destruct (populationStddev_defined (successfulRtts outcomes)) as (sd & E & Hpos).
      + unfold successfulReplies in Hge. intros E. rewrite E in Hge. simpl in Hge. lia.
      + exists sd. split; [exact E | split; [exact Hpos | lia]]. }
  destruct Hmean as (mean & Emean & Hmean0).
  destruct Hsd as (sd & Esd & Hpos & Hsd0).
  exists mean, sd. rewrite Emean. cbn [mbind option_bind]. rewrite Esd.
  cbn [mbind option_bind]. repeat split; assumption.
Qed.

(** C4: for every run of count >= 1 echoes the result's loss ratio is
    exactly (count - successfulReplies) / count, which is lostCount / count,
    over the ordered list of outcomes; count is the number of samples. *)
Theorem loss_ratio_exact (outcomes : list EchoOutcome) :
  (1 <= length outcomes)%nat ->
  exists r,
    aggregate outcomes = Some r
    /\ samples r = length outcomes
    /\ loss_ratio r
       = INR (length outcomes - successfulReplies outcomes) / INR (length outcomes)
    /\ loss_ratio r = INR (lostCount outcomes) / INR (length outcomes).
Proof.
  intros Hn. destruct (aggregate_defined outcomes Hn) as (mean & sd & E & _).
  eexists. split; [exact E |]. cbn [samples loss_ratio].
  split; [reflexivity | split; [| reflexivity]].
  pose proof (lost_plus_replies outcomes) as Hsum.
  replace (length outcomes - successfulReplies outcomes)%nat
    with (lostCount outcomes) by lia.
  reflexivity.
Qed.

Lemma loss_lt_one (lost n : nat) :
  (1 <= n)%nat -> (INR lost / INR n < 1 <-> (lost < n)%nat).
Proof.
  intros Hn. assert (Hpos : 0 < INR n) by (apply lt_0_INR; lia).
  split.
  - intros Hlt. apply INR_lt.
    apply (Rmult_lt_compat_r (INR n)) in Hlt; [| exact Hpos].
    unfold Rdiv in Hlt. rewrite Rmult_assoc, Rinv_l, Rmult_1_r, Rmult_1_l in Hlt; lra.
  - intros Hlt. apply lt_INR in Hlt.
    apply (Rmult_lt_reg_r (INR n)); [exact Hpos |].
    unfold Rdiv. rewrite Rmult_assoc, Rinv_l, Rmult_1_r, Rmult_1_l; lra.
Qed.

(** C5: for every probe result, success is true exactly when the loss
    ratio is below 1, that is exactly when some echo got a reply, that is
    when lostCount < count. *)
Theorem success_iff_loss_below_one (outcomes : list EchoOutcome) (r : ProbeResult) :
  aggregate outcomes = Some r ->
  (success r = true <-> loss_ratio r < 1)
  /\ (success r = true <-> exists rtt, In (Rtt rtt) outcomes)
  /\ (success r = true <-> (lostCount outcomes < length outcomes)%nat).
Proof.
  intros Hr.
  assert (Hn : (1 <= length outcomes)%nat).
  { destruct outcomes; [discriminate | simpl; lia]. }
  destruct (aggregate_defined outcomes Hn) as (mean & sd & E & _).
  rewrite E in Hr. injection Hr as <-. cbn [success loss_ratio].
  rewrite Nat.ltb_lt, (loss_lt_one _ _ Hn), <- successfulReplies_pos.
  pose proof (lost_plus_replies outcomes) as Hsum.
  repeat split; lia.
Qed.

(** C6: for every run the reported RTT standard deviation is defined and
    not negative, and it is 0 when fewer than two echoes got a reply; a run
    of a single echo has a result, with deviation 0 and loss ratio 0 or 1. *)
Theorem stddev_defined_nonneg (outcomes : list EchoOutcome) :
  (1 <= length outcomes)%nat ->
  exists r,
    aggregate outcomes = Some r
    /\ 0 <= rtt_stddev_seconds r
    /\ ((successfulReplies outcomes < 2)%nat -> rtt_stddev_seconds r = 0)
    /\ (length outcomes = 1%nat ->
        rtt_stddev_seconds r = 0 /\ (loss_ratio r = 0 \/ loss_ratio r = 1)).
Proof.
  intros Hn. destruct (aggregate_defined outcomes Hn) as (mean & sd & E & Hpos & Hsd0 & _).
  eexists. split; [exact E |]. cbn [rtt_stddev_seconds loss_ratio].
  split; [exact Hpos | split; [exact Hsd0 |]].
  intros Hone. pose proof (lost_plus_replies outcomes) as Hsum.
  split; [apply Hsd0; lia |].
  rewrite Hone. destruct (lostCount outcomes) as [|[|k]]; [left | right | lia];
    simpl; field.
Qed.

(** C7: a run of count >= 1 echoes always has a result; when no echo got a
    reply the result is success = false, loss ratio 1, RTT mean and
    deviation 0. *)
Theorem total_loss_yields_result (outcomes : list EchoOutcome) :
  (1 <= length outcomes)%nat ->
  (exists r, aggregate outcomes = Some r)
  /\ (successfulReplies outcomes = 0%nat ->
      aggregate outcomes
      = Some {| success := false;
                loss_ratio := 1;
                rtt_mean_seconds := 0;
                rtt_stddev_seconds := 0;
                samples := length outcomes |}).
Proof.
  intros Hn.
  destruct (aggregate_defined outcomes Hn) as (mean & sd & E & _ & Hsd0 & Hmean0).
  split; [eexists; exact E |].
  intros Hzero. rewrite E.
  pose proof (lost_plus_replies outcomes) as Hsum.
  replace (lostCount outcomes) with (length outcomes) by lia.
  rewrite Nat.ltb_irrefl, (Hmean0 Hzero), Hsd0 by lia.
  replace (INR (length outcomes) / INR (length outcomes)) with 1; [reflexivity |].
  field. apply not_0_INR. lia.
Qed.

End AggregatorFacts.

Lemma loss_ratio_exact_witness :
  exists r, aggregate lossyRun = Some r /\ samples r = 4%nat /\ loss_ratio r = (1 / 2)%R.
Proof.
  destruct (loss_ratio_exact lossyRun) as (r & E & Hs & Hl & _).
  - simpl. lia.
  - exists r. split; [exact E | split; [exact Hs |]].
    rewrite Hl. simpl. lra.
Defined.

Lemma success_iff_loss_below_one_witness :
  exists r, aggregate lossyRun = Some r /\ success r = true /\ (loss_ratio r < 1)%R.
Proof.
  destruct (aggregate_defined lossyRun) as (mean & sd & E & _); [simpl; lia |].
  destruct (success_iff_loss_below_one lossyRun _ E) as (Hloss & Hreply & _).
  eexists. split; [exact E |].
  assert (Hs : exists rtt, In (Rtt rtt) lossyRun).
  { exists (12 / 1000)%R. left. reflexivity. }
  apply Hreply in Hs. split; [exact Hs | apply Hloss, Hs].
Defined.

Lemma stddev_defined_nonneg_witness :
  exists r, aggregate [Rtt (12 / 1000)] = Some r
            /\ rtt_stddev_seconds r = 0%R /\ (0 <= rtt_stddev_seconds r)%R.
Proof.
  destruct (stddev_defined_nonneg [Rtt (12 / 1000)%R]) as (r & E & Hpos & Hlt & _).
  - simpl. lia.
  - exists r. split; [exact E | split; [apply Hlt; unfold successfulReplies; simpl; lia | exact Hpos]].
Defined.

Lemma total_loss_yields_result_witness :
  aggregate deadRun
  = Some {| success := false;
            loss_ratio := 1;
            rtt_mean_seconds := 0;
            rtt_stddev_seconds := 0;
            samples := 4 |}.
Proof.
  apply (proj2 (total_loss_yields_result deadRun ltac:(simpl; lia))).
  reflexivity.
Defined.

(** ** Invariants of the page *)

Section PageFacts.
Context `{JsNumber}.

(** A property every turn keeps holds after any run. *)
Lemma run_invariant (P : Page -> Prop) :
  (forall e s, P s -> P (step e s)) ->
  forall events s, P s -> P (run events s).
Proof.
  intros Hstep events. unfold run.
  induction events as [|e events IH]; intros s Hs; simpl; [exact Hs |].
  apply IH, Hstep, Hs.
Qed.

Lemma run_app (events later : list event) (s : Page) :
  run (events ++ later) s = run later (run events s).
Proof. unfold run. apply fold_left_app. Qed.

(** Case analysis on the conditionals and matches of the goal. *)
Ltac split_cases :=
  repeat match goal with
         | |- context [if ?c then _ else _] => destruct c eqn:?
         | |- context [match ?x with _ => _ end] => destruct x eqn:?
         end.

Ltac close_case := first [reflexivity | cbn; congruence].

(** Only a tab click changes the current type or the elements that show
    it. *)
Lemma step_chrome (e : event) (s : Page) :
  (exists t, e = TabClick t)
  \/ (currentType (step e s) = currentType s
      /\ sdLink_href (step e s) = sdLink_href s
      /\ hintEl_textContent (step e s) = hintEl_textContent s
      /\ icmpConfigEl_hidden (step e s) = icmpConfigEl_hidden s
      /\ tabs (step e s) = tabs s).
Proof.
  destruct e as [f v| |ty|row| | | |row|row confirmed|o|o items|o message];
    try (left; eexists; reflexivity); right; cbn [step];
    unfold editClick, cancelEdit, submitStart, submitAccepted, clickDf,
      flipCheckbox, renderRows, updateIcmpDfAvailability;
    split_cases; repeat split; reflexivity.
Qed.

Lemma setType_chrome (t : jsstring) (s : Page) : chromeFollowsType (setType t s).
Proof.
  unfold chromeFollowsType, setType, updateIcmpDfAvailability.
  assert (Htabs : Forall (fun x : jsstring * bool => snd x = strictEq (fst x) t)
                    (List.map (fun x => (fst x, strictEq (fst x) t)) (tabs s))).
  { induction (tabs s) as [|x l IH]; simpl; constructor; [reflexivity | exact IH]. }
  split_cases; cbn; repeat split; try reflexivity; exact Htabs.
Qed.

Lemma chromeFollowsType_step (e : event) (s : Page) :
  chromeFollowsType s -> chromeFollowsType (step e s).
Proof.
  intros Inv. destruct (step_chrome e s) as [(t & ->) | (Ec & El & Eh & Ei & Et)].
  - apply setType_chrome.
  - unfold chromeFollowsType. rewrite Ec, El, Eh, Ei, Et. exact Inv.
Qed.

Lemma prop_submitBody_icmp (s : Page) (key : string) :
  In key icmpKeys ->
  (is_Some (prop key (submitBody s)) <-> strictEq (currentType s) (lit "icmp") = true).
Proof.
  intros Hkey. unfold submitBody.
  destruct (strictEq (currentType s) (lit "icmp")).
  - split; [reflexivity | intros _].
    repeat (destruct Hkey as [<- | Hkey]; [cbn; eauto |]). destruct Hkey.
  - split; [| discriminate]. intros Hsome. exfalso.
    repeat (destruct Hkey as [<- | Hkey]; [cbn in Hsome; destruct Hsome; discriminate |]).
    destruct Hkey.
Qed.

(** X1: in every state the page reaches from its load the discovery link
    is "/sd/" followed by the current type, the hint is the hint of the
    current type, a tab is marked active exactly when it is the tab of
    the current type, and the ICMP block is hidden exactly off the ICMP
    tab; a submit sends the ICMP properties exactly when the block is
    shown. *)
Theorem chrome_follows_type (html : Page) (events : list event) :
  chromeFollowsType (run events (boot html))
  /\ forall key,
       In key icmpKeys ->
       (is_Some (prop key (bodyOf (submitRequest (run events (boot html)))))
        <-> icmpConfigEl_hidden (run events (boot html)) = false).
Proof.
  assert (Inv : chromeFollowsType (run events (boot html))).
  { apply run_invariant; [apply chromeFollowsType_step | apply setType_chrome]. }
  split; [exact Inv |].
  intros key Hkey. destruct Inv as (_ & _ & Ehidden & _). rewrite Ehidden.
  rewrite negb_false_iff, <- (prop_submitBody_icmp _ key Hkey).
  unfold submitRequest. destruct (isNullish (editId _)); cbn [bodyOf]; [| reflexivity].
  cbn [prop]. replace (String.eqb "type" key) with false; [reflexivity |].
  symmetry. apply String.eqb_neq. intros <-.
  repeat (destruct Hkey as [Hkey | Hkey]; [discriminate |]). destruct Hkey.
Qed.

(** *** The DF checkbox follows the target *)

Lemma dfTracksTarget_update (s : Page) : dfTracksTarget (updateIcmpDfAvailability s).
Proof.
  destruct (updateIcmpDfAvailability_fields s) as (Ec & Et).
  intros Hc. rewrite Ec in Hc. rewrite Et.
  apply (updateIcmpDfAvailability_icmp s Hc).
Qed.

Lemma dfTracksTarget_same (s s' : Page) :
  currentType s' = currentType s ->
  targetInput_value s' = targetInput_value s ->
  icmpDfInput_disabled s' = icmpDfInput_disabled s ->
  dfTracksTarget s -> dfTracksTarget s'.
Proof. unfold dfTracksTarget. intros -> -> ->. auto. Qed.

Lemma dfTracksTarget_setStatus (m k : jsstring) (s : Page) :
  dfTracksTarget s -> dfTracksTarget (setStatus m k s).
Proof. apply dfTracksTarget_same; reflexivity. Qed.

Lemma dfTracksTarget_step (e : event) (s : Page) :
  dfTracksTarget s -> dfTracksTarget (step e s).
Proof.
  intros Inv. destruct e as [f v| |ty|row| | | |row|row confirmed|o|o items|o message];
    cbn [step].
  - destruct f; try (revert Inv; apply dfTracksTarget_same; reflexivity).
    apply dfTracksTarget_update.
  - revert Inv. apply dfTracksTarget_same; unfold clickDf; split_cases; close_case.
  - apply dfTracksTarget_update.
  - destruct (tbody s !! row) as [[|it ? ? ? ? ?]|]; try exact Inv.
    apply dfTracksTarget_setStatus, dfTracksTarget_update.
  - apply dfTracksTarget_setStatus, dfTracksTarget_update.
  - exact Inv.
  - revert Inv. apply dfTracksTarget_same; unfold submitStart; split_cases; close_case.
  - revert Inv.
    apply dfTracksTarget_same; unfold flipCheckbox; split_cases; close_case.
  - revert Inv. apply dfTracksTarget_same; split_cases; close_case.
  - destruct o; try exact Inv. apply dfTracksTarget_update.
  - revert Inv.
    apply dfTracksTarget_same; unfold renderRows; split_cases; close_case.
  - revert Inv.
    apply dfTracksTarget_same; unfold flipCheckbox; split_cases; close_case.
Qed.

(** X2: in every state the page reaches from its load, on the ICMP tab the
    DF checkbox is disabled exactly when the target field holds what the
    script takes for an IPv6 literal: for any other target DF is
    available, whatever was typed, edited or cancelled before. *)
Theorem df_tracks_target (html : Page) (events : list event) :
  currentType (run events (boot html)) = lit "icmp" ->
  icmpDfInput_disabled (run events (boot html))
  = looksLikeIpv6 (targetInput_value (run events (boot html))).
Proof.
  apply (run_invariant dfTracksTarget dfTracksTarget_step).
  apply dfTracksTarget_update.
Qed.

(** *** Add mode and edit mode *)

Lemma mode_same (s s' : Page) :
  submitBtn_textContent s' = submitBtn_textContent s ->
  cancelEditBtn_hidden s' = cancelEditBtn_hidden s ->
  editId s' = editId s ->
  addMode s \/ editMode s -> addMode s' \/ editMode s'.
Proof. unfold addMode, editMode. intros -> -> ->. auto. Qed.

Lemma mode_step (e : event) (s : Page) :
  addMode s \/ editMode s -> addMode (step e s) \/ editMode (step e s).
Proof.
  intros Inv. destruct e as [f v| |ty|row| | | |row|row confirmed|o|o items|o message];
    cbn [step].
  - revert Inv. apply mode_same; destruct f;
      unfold updateIcmpDfAvailability; split_cases; close_case.
  - revert Inv. apply mode_same; unfold clickDf; split_cases; close_case.
  - left. unfold addMode, setType, updateIcmpDfAvailability.
    split_cases; repeat split; reflexivity.
  - destruct (tbody s !! row) as [[|it ? ? ? ? ?]|]; try exact Inv.
    right. unfold editMode, editClick, updateIcmpDfAvailability.
    split_cases; repeat split; reflexivity.
  - left. unfold addMode, cancelEdit, updateIcmpDfAvailability.
    split_cases; repeat split; reflexivity.
  - exact Inv.
  - revert Inv. apply mode_same; unfold submitStart; split_cases; close_case.
  - revert Inv. apply mode_same; unfold flipCheckbox; split_cases; close_case.
  - revert Inv. apply mode_same; split_cases; close_case.
  - destruct o; try exact Inv.
    left. unfold addMode, submitAccepted, updateIcmpDfAvailability.
    split_cases; repeat split; reflexivity.
  - revert Inv. apply mode_same; unfold renderRows; split_cases; close_case.
  - revert Inv. apply mode_same; unfold flipCheckbox; split_cases; close_case.
Qed.

(** X3: in every state the page reaches from its load the form is either
    in add mode (button "Add", Cancel hidden, no edited id) or in edit
    mode (button "Save", Cancel shown).  While Cancel is hidden a submit
    is a POST that creates a target of the current type; a submit is a
    PATCH only in edit mode, and then to the edited id. *)
Theorem form_mode (html : Page) (events : list event) :
  (addMode (run events (boot html)) \/ editMode (run events (boot html)))
  /\ (cancelEditBtn_hidden (run events (boot html)) = true ->
      submitRequest (run events (boot html))
      = POST_targets (("type"%string, JStr (currentType (run events (boot html))))
                        :: submitBody (run events (boot html))))
  /\ (forall target_id body,
         submitRequest (run events (boot html)) = PATCH_target target_id body ->
         editMode (run events (boot html))
         /\ target_id = editId (run events (boot html))
         /\ body = submitBody (run events (boot html))).
Proof.
  assert (Inv : addMode (run events (boot html)) \/ editMode (run events (boot html))).
  { apply (run_invariant (fun s => addMode s \/ editMode s) mode_step).
    left. unfold boot, addMode, setType, updateIcmpDfAvailability.
    split_cases; repeat split; reflexivity. }
  set (s := run events (boot html)) in *.
  split; [exact Inv | split].
  - intros Hhidden. destruct Inv as [(_ & _ & Eid) | (_ & Eshown)]; [| congruence].
    unfold submitRequest. rewrite Eid. reflexivity.
  - intros target_id body Hreq. unfold submitRequest in Hreq.
    destruct Inv as [(_ & _ & Eid) | Hedit].
    + rewrite Eid in Hreq. discriminate.
    + destruct (isNullish (editId s)); [discriminate |].
      injection Hreq as <- <-. repeat split; [apply Hedit | apply Hedit].
Qed.

(** *** Editing, cancelling, submitting *)

(** What Cancel reads of the page it starts from. *)
Lemma cancelEdit_depends (x y : Page) :
  currentType x = currentType y ->
  tabs x = tabs y ->
  sdLink_href x = sdLink_href y ->
  hintEl_textContent x = hintEl_textContent y ->
  icmpConfigEl_hidden x = icmpConfigEl_hidden y ->
  checkboxes x = checkboxes y ->
  tbody x = tbody y ->
  (strictEq (currentType y) (lit "icmp") = false ->
   icmpDfInput_disabled x = icmpDfInput_disabled y) ->
  cancelEdit x = cancelEdit y.
Proof.
  destruct x, y. cbn [currentType tabs sdLink_href hintEl_textContent
                      icmpConfigEl_hidden checkboxes tbody icmpDfInput_disabled].
  intros -> -> -> -> -> -> -> Hdisabled.
  unfold cancelEdit, updateIcmpDfAvailability. cbn [currentType targetInput_value].
  destruct (strictEq _ (lit "icmp")); cbn [negb]; [reflexivity |].
  rewrite Hdisabled by reflexivity. reflexivity.
Qed.

Lemma editClick_frame (it : item) (s : Page) :
  currentType (editClick it s) = currentType s
  /\ tabs (editClick it s) = tabs s
  /\ sdLink_href (editClick it s) = sdLink_href s
  /\ hintEl_textContent (editClick it s) = hintEl_textContent s
  /\ icmpConfigEl_hidden (editClick it s) = icmpConfigEl_hidden s
  /\ checkboxes (editClick it s) = checkboxes s
  /\ tbody (editClick it s) = tbody s
  /\ (strictEq (currentType s) (lit "icmp") = false ->
      icmpDfInput_disabled (editClick it s) = icmpDfInput_disabled s).
Proof.
  unfold editClick, updateIcmpDfAvailability. cbv zeta.
  cbn [setStatus currentType tabs sdLink_href hintEl_textContent icmpConfigEl_hidden
       checkboxes tbody icmpDfInput_disabled].
  destruct (strictEq (currentType s) (lit "icmp")); cbn [negb];
    repeat split; try reflexivity; discriminate.
Qed.

Lemma cancelEdit_frame (s : Page) :
  currentType (cancelEdit s) = currentType s
  /\ tabs (cancelEdit s) = tabs s
  /\ sdLink_href (cancelEdit s) = sdLink_href s
  /\ hintEl_textContent (cancelEdit s) = hintEl_textContent s
  /\ icmpConfigEl_hidden (cancelEdit s) = icmpConfigEl_hidden s
  /\ checkboxes (cancelEdit s) = checkboxes s
  /\ tbody (cancelEdit s) = tbody s
  /\ (strictEq (currentType s) (lit "icmp") = false ->
      icmpDfInput_disabled (cancelEdit s) = icmpDfInput_disabled s).
Proof.
  unfold cancelEdit, updateIcmpDfAvailability.
  cbn [setStatus currentType tabs sdLink_href hintEl_textContent icmpConfigEl_hidden
       checkboxes tbody icmpDfInput_disabled].
  destruct (strictEq (currentType s) (lit "icmp")); cbn [negb];
    repeat split; try reflexivity; discriminate.
Qed.

(** X4: Cancel leaves nothing of an edit behind: cancelling after Edit
    gives the page that cancelling alone gives, whatever the item, and
    cancelling twice is cancelling once. *)
Theorem cancel_discards_edit (it : item) (s : Page) :
  cancelEdit (editClick it s) = cancelEdit s
  /\ cancelEdit (cancelEdit s) = cancelEdit s.
Proof.
  split.
  - destruct (editClick_frame it s) as (? & ? & ? & ? & ? & ? & ? & ?).
    apply cancelEdit_depends; assumption.
  - destruct (cancelEdit_frame s) as (? & ? & ? & ? & ? & ? & ? & ?).
    apply cancelEdit_depends; assumption.
Qed.

Lemma editClick_form (it : item) (s : Page) :
  editId (editClick it s) = id it
  /\ currentType (editClick it s) = currentType s
  /\ nameInput_value (editClick it s) = toDOMString (jsOr (name it) (JStr []))
  /\ targetInput_value (editClick it s) = toDOMString (target it)
  /\ scrapeProfileSelect_value (editClick it s) = effectiveScrapeProfile it.
Proof.
  unfold editClick, updateIcmpDfAvailability. cbv zeta.
  split_cases; repeat split; reflexivity.
Qed.

(** X5: a submit right after Edit sends the item back as the form shows
    it: the name (empty if the item has none), the target, and the
    effective scrape profile, never the type.  It is a PATCH to the id of
    the item; for an item without an id it is a POST that creates a
    target. *)
Theorem edit_then_submit (it : item) (s : Page) :
  prop "name" (submitBody (editClick it s))
  = Some (JStr (toDOMString (jsOr (name it) (JStr []))))
  /\ prop "target" (submitBody (editClick it s)) = Some (JStr (toDOMString (target it)))
  /\ prop "scrape_profile" (submitBody (editClick it s))
     = Some (JStr (effectiveScrapeProfile it))
  /\ prop "type" (submitBody (editClick it s)) = None
  /\ (isNullish (id it) = false ->
      submitRequest (editClick it s) = PATCH_target (id it) (submitBody (editClick it s)))
  /\ (isNullish (id it) = true ->
      submitRequest (editClick it s)
      = POST_targets (("type"%string, JStr (currentType s))
                        :: submitBody (editClick it s))).
Proof.
  destruct (editClick_form it s) as (Eid & Ec & En & Et & Ep).
  unfold submitRequest. rewrite Eid, Ec.
  unfold submitBody. rewrite En, Et, Ep, Ec.
  split; [reflexivity | split; [reflexivity | split; [reflexivity | split]]].
  - destruct (strictEq (currentType s) (lit "icmp")); reflexivity.
  - split; intros ->; reflexivity.
Qed.

(** X6: on the ICMP tab, Edit on an ICMP target that is not taken for an
    IPv6 literal loads the target's effective DF into the checkbox and
    leaves it enabled, and a submit sends that DF; the four numbers sent
    are the effective ones as the inputs print them, read back by
    [Number]. *)
Theorem edit_keeps_df (it : item) (s : Page) :
  currentType s = lit "icmp" ->
  isString (type it) (lit "icmp") = true ->
  looksLikeIpv6 (toDOMString (target it)) = false ->
  icmpDfInput_checked (editClick it s) = df (effectiveIcmp it)
  /\ icmpDfInput_disabled (editClick it s) = false
  /\ prop "icmp_df" (submitBody (editClick it s)) = Some (JBool (df (effectiveIcmp it)))
  /\ prop "icmp_count" (submitBody (editClick it s))
     = Some (JNum (StringToNumber (NumberToString (count (effectiveIcmp it)))))
  /\ prop "icmp_interval_ms" (submitBody (editClick it s))
     = Some (JNum (StringToNumber (NumberToString (interval_ms (effectiveIcmp it)))))
  /\ prop "icmp_timeout_ms" (submitBody (editClick it s))
     = Some (JNum (StringToNumber (NumberToString (timeout_ms (effectiveIcmp it)))))
  /\ prop "icmp_packet_size" (submitBody (editClick it s))
     = Some (JNum (StringToNumber (NumberToString (packet_size (effectiveIcmp it))))).
Proof.
  intros Hc Hty Hv4.
  unfold submitBody, editClick, updateIcmpDfAvailability. cbv zeta.
  cbn [setStatus currentType targetInput_value icmpDfInput_checked icmpDfInput_disabled
       icmpCountInput_value icmpIntervalInput_value icmpTimeoutInput_value
       icmpPacketSizeInput_value nameInput_value scrapeProfileSelect_value].
  rewrite Hc, strictEq_refl. cbn [negb].
  cbn [setStatus currentType targetInput_value icmpDfInput_checked icmpDfInput_disabled
       icmpCountInput_value icmpIntervalInput_value icmpTimeoutInput_value
       icmpPacketSizeInput_value nameInput_value scrapeProfileSelect_value].
  rewrite strictEq_refl, Hty, Hv4.
  repeat split; cbn; destruct (df (effectiveIcmp it)); reflexivity.
Qed.

(** X7: the effective values are stable: a target that stores the
    effective scrape profile of another has that effective profile, and a
    target that stores the effective ICMP parameters of another has those
    effective parameters. *)
Theorem effective_values_stable (it stored : item) :
  (scrape_profile stored = JStr (effectiveScrapeProfile it) ->
   effectiveScrapeProfile stored = effectiveScrapeProfile it)
  /\ (icmp_count stored = JNum (count (effectiveIcmp it)) ->
      icmp_interval_ms stored = JNum (interval_ms (effectiveIcmp it)) ->
      icmp_timeout_ms stored = JNum (timeout_ms (effectiveIcmp it)) ->
      icmp_packet_size stored = JNum (packet_size (effectiveIcmp it)) ->
      icmp_df stored = JBool (df (effectiveIcmp it)) ->
      effectiveIcmp stored = effectiveIcmp it).
Proof.
  split.
  - intros Hs.
    assert (Hin : In (effectiveScrapeProfile it) SCRAPE_PROFILES).
    { destruct (effectiveScrapeProfile_cases it) as [(Hin & ->) | (_ & ->)];
        [exact Hin | right; right; left; reflexivity]. }
    assert (Hstored : storedProfile stored = effectiveScrapeProfile it).
    { unfold storedProfile. rewrite Hs. cbn [ToString].
      destruct Hin as [<- | [<- | [<- | [<- | []]]]]; reflexivity. }
    destruct (effectiveScrapeProfile_cases stored) as [(_ & ->) | (Hnot & _)].
    + exact Hstored.
    + rewrite Hstored in Hnot. contradiction.
  - intros Hcount Hinterval Htimeout Hsize Hdf.
    unfold effectiveIcmp at 1. rewrite Hcount, Hinterval, Htimeout, Hsize, Hdf.
    cbn [isNullish Number Boolean]. destruct (effectiveIcmp it). reflexivity.
Qed.

(** *** The status line *)

(** X8: the status line carries the error class exactly after a failure:
    the catch of every listener shows the message of the error with the
    class, and any other turn that writes the status line clears the
    class (if the class is still there after such a turn, the turn left
    the status line as it was). *)
Theorem error_shown_only_for_failures (e : event) (s : Page) :
  (forall o message,
      e = Rejected o message ->
      statusEl_textContent (step e s) = message /\ statusEl_error (step e s) = true)
  /\ ((forall o message, e <> Rejected o message) ->
      statusEl_error (step e s) = true ->
      statusEl_error s = true
      /\ statusEl_textContent (step e s) = statusEl_textContent s).
Proof.
  split.
  - intros o message ->. cbn [step].
    destruct o; cbn [setStatus statusEl_textContent statusEl_error];
      rewrite toDOMString_or_empty; split; reflexivity.
  - intros Hnot.
    destruct e as [f v| |ty|row| | | |row|row confirmed|o|o items|o message];
      [| | | | | | | | | | | exfalso; exact (Hnot o message eq_refl)];
      cbn [step];
      unfold setType, editClick, cancelEdit, submitStart, submitAccepted, clickDf,
        renderRows, updateIcmpDfAvailability;
      split_cases; cbn; intros Herr; first [discriminate | split; [exact Herr | reflexivity]].
Qed.

(** *** Requests *)

Lemma currentType_setType (t : jsstring) (s : Page) : currentType (setType t s) = t.
Proof.
  unfold setType. destruct (updateIcmpDfAvailability_fields
    {| currentType := t; editId := JNull;
       statusEl_textContent := statusEl_textContent (setStatus [] (lit "info") s);
       statusEl_error := statusEl_error (setStatus [] (lit "info") s);
       tabs := List.map (fun x => (fst x, strictEq (fst x) t)) (tabs s);
       sdLink_href := lit "/sd/" ++ t;
       hintEl_textContent := hintFor t;
       icmpConfigEl_hidden := negb (strictEq t (lit "icmp"));
       nameInput_value := [];
       targetInput_value := [];
       scrapeProfileSelect_value := DEFAULT_SCRAPE_PROFILE;
       icmpCountInput_value := ToString (JNum (count ICMP_DEFAULTS));
       icmpIntervalInput_value := ToString (JNum (interval_ms ICMP_DEFAULTS));
       icmpTimeoutInput_value := ToString (JNum (timeout_ms ICMP_DEFAULTS));
       icmpPacketSizeInput_value := ToString (JNum (packet_size ICMP_DEFAULTS));
       icmpDfInput_checked := Boolean (JBool (df ICMP_DEFAULTS));
       icmpDfInput_disabled := icmpDfInput_disabled s;
       submitBtn_textContent := lit "Add";
       cancelEditBtn_hidden := true;
       checkboxes := checkboxes s;
       tbody := tbody s |}) as (E & _).
  exact E.
Qed.

(** X9: what a turn may send.  A GET always asks for the targets of the
    type current after the turn.  A POST comes only from a submit with no
    edited id and carries the current type before the form's body.  A
    PATCH comes from a submit with an edited id, with the form's body, or
    from a click on the "enabled" checkbox of a row, to that row's item,
    with the negation of the checkbox's state before the click.  A DELETE
    comes only from a confirmed Delete click on a row, for that row's
    item. *)
Theorem requests_origin (e : event) (s : Page) (r : request) :
  In r (requests e s) ->
  match r with
  | GET_targets t => t = currentType (step e s)
  | POST_targets body =>
      e = Submit /\ isNullish (editId s) = true
      /\ body = ("type"%string, JStr (currentType s)) :: submitBody s
  | PATCH_target target_id body =>
      (e = Submit /\ isNullish (editId s) = false
       /\ target_id = editId s /\ body = submitBody s)
      \/ (exists row it checkbox tdName tdTarget tdScrape tdIcmp before,
             e = EnabledClick row
             /\ tbody s !! row
                = Some (TargetRow it checkbox tdName tdTarget tdScrape tdIcmp)
             /\ checkboxes s !! checkbox = Some before
             /\ target_id = id it
             /\ body = [("enabled"%string, JBool (negb before))])
  | DELETE_target target_id =>
      exists row it checkbox tdName tdTarget tdScrape tdIcmp,
        e = DeleteClick row true
        /\ tbody s !! row = Some (TargetRow it checkbox tdName tdTarget tdScrape tdIcmp)
        /\ target_id = id it
  end.
Proof.
  destruct e as [f v| |ty|row| | | |row|row confirmed|o|o items|o message];
    cbn [requests]; try solve [intros []].
  - intros [<- | []]. symmetry. apply currentType_setType.
  - intros [<- | []]. reflexivity.
  - intros [<- | []]. unfold submitRequest.
    destruct (isNullish (editId s)) eqn:Hid.
    + repeat split; reflexivity.
    + left. repeat split; reflexivity.
  - destruct (tbody s !! row) as [[|it checkbox a b c d]|] eqn:Hrow; try solve [intros []].
    destruct (checkboxes s !! checkbox) as [before|] eqn:Hbox; try solve [intros []].
    intros [<- | []]. right. exists row, it, checkbox, a, b, c, d, before.
    repeat split; first [reflexivity | assumption].
  - destruct confirmed; try solve [intros []].
    destruct (tbody s !! row) as [[|it checkbox a b c d]|] eqn:Hrow; try solve [intros []].
    intros [<- | []]. exists row, it, checkbox, a, b, c, d.
    repeat split; first [reflexivity | assumption].
  - destruct o; try solve [intros []]; intros [<- | []]; reflexivity.
Qed.

(** *** The table *)

Lemma renderLoop_rows (items : list item) (store : list bool) (rows : list trow) :
  snd (renderLoop items store rows) = rows ++ imap (rowOf (length store)) items.
Proof.
  revert store rows. induction items as [|it items IH]; intros store rows; simpl.
  - rewrite app_nil_r. reflexivity.
  - rewrite IH, <- app_assoc. cbn [app]. f_equal. f_equal.
    + unfold rowOf. rewrite Nat.add_0_r. reflexivity.
    + apply imap_ext. intros i x _. unfold rowOf, compose.
      rewrite length_app. cbn [length]. f_equal. lia.
Qed.

Lemma renderRows_cons (it : item) (items : list item) (s : Page) :
  tbody (renderRows (it :: items) s) = imap (rowOf (length (checkboxes s))) (it :: items)
  /\ checkboxes (renderRows (it :: items) s)
     = checkboxes s ++ List.map (fun x => Boolean (enabled x)) (it :: items).
Proof.
  unfold renderRows.
  pose proof (renderLoop_rows (it :: items) (checkboxes s) []) as Hrows.
  pose proof (renderLoop_store (it :: items) (checkboxes s) []) as Hstore.
  destruct (renderLoop (it :: items) (checkboxes s) []) as [store rows].
  cbn [fst snd] in *. cbn [tbody checkboxes]. split; assumption.
Qed.


Lemma rowCheckboxes_imap (base : nat) (items : list item) :
  rowCheckboxes (imap (rowOf base) items) = seq base (length items).
Proof.
  revert base. induction items as [|it items IH]; intros base; [reflexivity |].
  cbn [imap rowOf rowCheckboxes length seq]. rewrite Nat.add_0_r. f_equal.
  rewrite <- IH. f_equal. apply imap_ext. intros i x _.
  unfold rowOf, compose. f_equal. lia.
Qed.

(** A rendering gives every row a checkbox of its own. *)
Lemma renderRows_own (items : list item) (s : Page) : ownCheckboxes (renderRows items s).
Proof.
  unfold ownCheckboxes. destruct items as [|it items].
  - split; [constructor | constructor].
  - destruct (renderRows_cons it items s) as (-> & ->).
    rewrite rowCheckboxes_imap. split; [apply NoDup_seq |].
    apply Forall_forall. intros c Hc. apply elem_of_seq in Hc.
    rewrite length_app, length_map. lia.
Qed.

(** Only a rendering changes the table; no turn removes a checkbox. *)
Lemma step_table (e : event) (s : Page) :
  (exists o items, e = Rendered o items)
  \/ (tbody (step e s) = tbody s
      /\ length (checkboxes (step e s)) = length (checkboxes s)).
Proof.
  destruct e as [f v| |ty|row| | | |row|row confirmed|o|o items|o message];
    try (left; eexists; eexists; reflexivity); right; cbn [step];
    unfold setType, editClick, cancelEdit, submitStart, submitAccepted, clickDf,
      flipCheckbox, updateIcmpDfAvailability;
    split_cases; cbn; rewrite ?length_insert; split; reflexivity.
Qed.

Lemma ownCheckboxes_step (e : event) (s : Page) :
  ownCheckboxes s -> ownCheckboxes (step e s).
Proof.
  intros Inv. destruct (step_table e s) as [(o & items & ->) | (Et & El)].
  - cbn [step]. destruct o; apply renderRows_own.
  - unfold ownCheckboxes. rewrite Et, El. exact Inv.
Qed.

Lemma rowCheckboxes_lookup (rows : list trow) (i : nat) (it : item) (checkbox : nat)
    (tdName tdTarget tdScrape tdIcmp : jsstring) :
  rows !! i = Some (TargetRow it checkbox tdName tdTarget tdScrape tdIcmp) ->
  In checkbox (rowCheckboxes rows).
Proof.
  revert i. induction rows as [|r rows IH]; intros [|i] Hi; try discriminate.
  - injection Hi as ->. left. reflexivity.
  - cbn in Hi. destruct r; [| right]; eapply IH; exact Hi.
Qed.

Lemma rowCheckboxes_distinct (rows : list trow) (i j : nat) (it it' : item)
    (checkbox checkbox' : nat) (a b c d a' b' c' d' : jsstring) :
  NoDup (rowCheckboxes rows) ->
  rows !! i = Some (TargetRow it checkbox a b c d) ->
  rows !! j = Some (TargetRow it' checkbox' a' b' c' d') ->
  i <> j -> checkbox <> checkbox'.
Proof.
  revert i j. induction rows as [|r rows IH]; intros i j Hnd Hi Hj Hne;
    [destruct i; discriminate |].
  destruct i as [|i], j as [|j]; [contradiction | | |].
  - injection Hi as ->. cbn in Hj. cbn [rowCheckboxes] in Hnd.
    apply NoDup_cons in Hnd as (Hnot & _). intros <-.
    apply Hnot. apply list_elem_of_In. eapply rowCheckboxes_lookup. exact Hj.
  - injection Hj as ->. cbn in Hi. cbn [rowCheckboxes] in Hnd.
    apply NoDup_cons in Hnd as (Hnot & _). intros ->.
    apply Hnot. apply list_elem_of_In. eapply rowCheckboxes_lookup. exact Hi.
  - cbn in Hi, Hj. apply (IH i j); [| exact Hi | exact Hj | congruence].
    destruct r; cbn [rowCheckboxes] in Hnd; [exact Hnd |].
    apply NoDup_cons in Hnd as (_ & Hnd). exact Hnd.
Qed.

(** X11: if the table the HTML ships gives every row a checkbox of its own
    (an empty table does), then in every state the page reaches every row
    has one: the checkboxes of two different rows are different elements
    and both exist, and a click on the "enabled" checkbox of one row flips
    it and leaves the checkbox of the other row as it is. *)
Theorem each_row_own_checkbox
    (html : Page) (events : list event) (row row' : nat) (it it' : item)
    (checkbox checkbox' : nat) (a b c d a' b' c' d' : jsstring) :
  ownCheckboxes html ->
  tbody (run events (boot html)) !! row = Some (TargetRow it checkbox a b c d) ->
  tbody (run events (boot html)) !! row' = Some (TargetRow it' checkbox' a' b' c' d') ->
  row <> row' ->
  checkbox <> checkbox'
  /\ exists state state',
       checkboxes (run events (boot html)) !! checkbox = Some state
       /\ checkboxes (run events (boot html)) !! checkbox' = Some state'
       /\ checkboxes (step (EnabledClick row) (run events (boot html))) !! checkbox
          = Some (negb state)
       /\ checkboxes (step (EnabledClick row) (run events (boot html))) !! checkbox'
          = Some state'.
Proof.
  intros Hhtml Hrow Hrow' Hne.
  assert (Inv : ownCheckboxes (run events (boot html))).
  { apply (run_invariant ownCheckboxes ownCheckboxes_step).
    destruct (step_table (TabClick (lit "http")) html) as [(o & items & E) | (Et & El)];
      [discriminate |].
    unfold ownCheckboxes, boot. cbn [step] in Et, El. rewrite Et, El. exact Hhtml. }
  set (s := run events (boot html)) in *.
  destruct Inv as (Hnd & Hvalid).
  assert (Hdiff : checkbox <> checkbox').
  { exact (rowCheckboxes_distinct _ _ _ _ _ _ _ _ _ _ _ _ _ _ _ Hnd Hrow Hrow' Hne). }
  split; [exact Hdiff |].
  rewrite Forall_forall in Hvalid.
  destruct (lookup_lt_is_Some_2 (checkboxes s) checkbox) as (state & Hstate).
  { apply Hvalid, list_elem_of_In. eapply rowCheckboxes_lookup. exact Hrow. }
  destruct (lookup_lt_is_Some_2 (checkboxes s) checkbox') as (state' & Hstate').
  { apply Hvalid, list_elem_of_In. eapply rowCheckboxes_lookup. exact Hrow'. }
  exists state, state'. split; [exact Hstate | split; [exact Hstate' |]].
  cbn [step]. rewrite Hrow. cbn [setStatus checkboxes].
  destruct (flipCheckbox_same checkbox s state Hstate) as (-> & _). split.
  - apply list_lookup_insert_eq. apply lookup_lt_is_Some. eauto.
  - rewrite list_lookup_insert_ne by exact Hdiff. exact Hstate'.
Qed.

End PageFacts.

(** ** The [api] helper *)

Section ApiFacts.
Context `{JsNumber}.
Variable conversionError : jsstring.

Lemma isJson_jsonTyped (contentType : option jsstring) :
  includes match contentType with
           | Some (c :: v) => c :: v
           | _ => []
           end (lit "application/json") = true
  <-> jsonTyped contentType.
Proof.
  rewrite includes_occursIn. unfold jsonTyped. split.
  - destruct contentType as [[|c v]|]; intros Hocc.
    + exists []. split; [reflexivity | exact Hocc].
    + exists (c :: v). split; [reflexivity | exact Hocc].
    + destruct Hocc as ([|? ?] & after & E); discriminate.
  - intros (v & -> & Hocc). destruct v; exact Hocc.
Qed.

Lemma isJson_not_jsonTyped (contentType : option jsstring) :
  includes match contentType with
           | Some (c :: v) => c :: v
           | _ => []
           end (lit "application/json") = false
  <-> ~ jsonTyped contentType.
Proof.
  rewrite <- isJson_jsonTyped. destruct (includes _ _); split; congruence.
Qed.

(** X12: [api] returns a payload only for a response whose [ok] flag is
    set, and for every such response whose body can be read: the parsed
    value when the content type declares JSON, the text of the body
    otherwise.  A rejected fetch, a response that is not ok and a body
    that cannot be read or does not parse all throw. *)
Theorem api_returns_iff_ok (r : fetched) (p : payload) :
  api conversionError r = Returns p
  <-> exists status contentType text parsed,
        r = Response true status contentType text parsed
        /\ ((jsonTyped contentType /\ exists j, parsed = inl j /\ p = Json j)
            \/ (~ jsonTyped contentType /\ exists t, text = inl t /\ p = Text t)).
Proof.
  split.
  - destruct r as [message | ok status contentType text parsed]; [discriminate |].
    unfold api.
    destruct (includes _ (lit "application/json")) eqn:Hjson.
    + apply isJson_jsonTyped in Hjson.
      destruct parsed as [j | message]; [| discriminate].
      destruct ok; cbn [negb].
      * intros [= <-]. exists status, contentType, text, (inl j).
        split; [reflexivity | left; split; [exact Hjson | exists j; split; reflexivity]].
      * destruct (errorOf (Json j)) as [e|]; [destruct (jsonToString e) |]; discriminate.
    + apply isJson_not_jsonTyped in Hjson.
      destruct text as [t | message]; [| discriminate].
      destruct ok; cbn [negb].
      * intros [= <-]. exists status, contentType, (inl t), parsed.
        split; [reflexivity | right; split; [exact Hjson | exists t; split; reflexivity]].
      * cbn [errorOf]. discriminate.
  - intros (status & contentType & text & parsed & ->
            & [(Hjson & j & -> & ->) | (Hjson & t & -> & ->)]).
    + apply isJson_jsonTyped in Hjson. unfold api. rewrite Hjson. reflexivity.
    + apply isJson_not_jsonTyped in Hjson. unfold api. rewrite Hjson. reflexivity.
Qed.

(** X13: the message [api] throws for a response.  Without a JSON content
    type a response that is not ok gives "HTTP " and the status, whatever
    the text of the body.  With one, a body that does not parse gives the
    message of the parse error, even when the response is ok; a response
    that is not ok gives the [error] member of the parsed object when that
    is a non-empty string, and "HTTP " and the status when the parsed
    value is null or an object without an [error] member. *)
Theorem api_error_message
    (ok : bool) (status : number) (contentType : option jsstring)
    (text : jsstring + jsstring) (parsed : json + jsstring) :
  (~ jsonTyped contentType ->
   forall t,
     text = inl t ->
     api conversionError (Response false status contentType text parsed)
     = Throws (lit "HTTP " ++ NumberToString status))
  /\ (jsonTyped contentType ->
      forall message,
        parsed = inr message ->
        api conversionError (Response ok status contentType text parsed) = Throws message)
  /\ (jsonTyped contentType ->
      forall members c message,
        parsed = inl (JsonObj members) ->
        getMember (lit "error") members = Some (JsonStr (c :: message)) ->
        api conversionError (Response false status contentType text parsed)
        = Throws (c :: message))
  /\ (jsonTyped contentType ->
      forall members,
        (parsed = inl JsonNull
         \/ (parsed = inl (JsonObj members) /\ getMember (lit "error") members = None)) ->
        api conversionError (Response false status contentType text parsed)
        = Throws (lit "HTTP " ++ NumberToString status)).
Proof.
  split; [| split; [| split]].
  - intros Hjson t ->. apply isJson_not_jsonTyped in Hjson. unfold api. rewrite Hjson.
    reflexivity.
  - intros Hjson message ->. apply isJson_jsonTyped in Hjson. unfold api.
    rewrite Hjson. reflexivity.
  - intros Hjson members c message -> Herr. apply isJson_jsonTyped in Hjson.
    unfold api. rewrite Hjson. cbn [negb errorOf]. rewrite Herr. reflexivity.
  - intros Hjson members [-> | (-> & Herr)]; apply isJson_jsonTyped in Hjson;
      unfold api; rewrite Hjson; cbn [negb errorOf]; [| rewrite Herr]; reflexivity.
Qed.

(** X14: when the request of a submit or of a Delete fails, the catch
    shows the message [api] threw with the error class and changes nothing
    else on the page: the form keeps what it held, the edited id and the
    table stay, so the user can try again. *)
Theorem failure_keeps_page (o : origin) (r : fetched) (message : jsstring) (s : Page) :
  o = BySubmit \/ o = ByDelete ->
  api conversionError r = Throws message ->
  statusEl_textContent (step (afterMutation o (api conversionError r)) s) = message
  /\ statusEl_error (step (afterMutation o (api conversionError r)) s) = true
  /\ sameButStatus s (step (afterMutation o (api conversionError r)) s).
Proof.
  intros Ho ->. cbn [afterMutation].
  destruct Ho as [-> | ->]; cbn [step]; unfold sameButStatus;
    cbn [setStatus statusEl_textContent statusEl_error];
    rewrite toDOMString_or_empty; repeat split; reflexivity.
Qed.

End ApiFacts.

(** *** Instances on the sample data *)

Lemma chrome_follows_type_witness :
  is_Some (prop "icmp_df" (bodyOf (submitRequest icmpTab))).
Proof.
  destruct (proj2 (chrome_follows_type blankPage
                     [TabClick (lit "icmp"); Rendered ByRefresh [gateway6; resolver4]])
                  "icmp_df"%string) as [_ Hshown].
  - vm_compute. tauto.
  - apply Hshown. reflexivity.
Defined.

Lemma df_tracks_target_witness :
  icmpDfInput_disabled
    (run [TabClick (lit "icmp"); Input TargetField (lit "[fe80::1]");
          Input TargetField (lit "10.0.0.1")] (boot blankPage))
  = false.
Proof.
  rewrite (df_tracks_target blankPage
             [TabClick (lit "icmp"); Input TargetField (lit "[fe80::1]");
              Input TargetField (lit "10.0.0.1")]).
  - reflexivity.
  - reflexivity.
Defined.

Lemma form_mode_witness :
  submitRequest (run [EditClick 0; CancelClick] icmpTab)
  = POST_targets
      (("type"%string, JStr (lit "icmp"))
         :: submitBody (run [EditClick 0; CancelClick] icmpTab)).
Proof.
  apply (proj1 (proj2 (form_mode blankPage
                         [TabClick (lit "icmp");
                          Rendered ByRefresh [gateway6; resolver4];
                          EditClick 0; CancelClick]))).
  reflexivity.
Defined.

Lemma edit_then_submit_witness :
  submitRequest (editClick gateway6 icmpTab)
  = PATCH_target (JNum (Int 7)) (submitBody (editClick gateway6 icmpTab)).
Proof.
  destruct (edit_then_submit gateway6 icmpTab) as (_ & _ & _ & _ & Hpatch & _).
  apply Hpatch. reflexivity.
Defined.

Lemma edit_keeps_df_witness :
  icmpDfInput_checked (editClick printer4 icmpTab) = true
  /\ icmpDfInput_disabled (editClick printer4 icmpTab) = false
  /\ prop "icmp_df" (submitBody (editClick printer4 icmpTab)) = Some (JBool true).
Proof.
  destruct (edit_keeps_df printer4 icmpTab) as (Hchecked & Hdisabled & Hsent & _).
  - reflexivity.
  - reflexivity.
  - reflexivity.
  - split; [exact Hchecked | split; [exact Hdisabled | exact Hsent]].
Defined.

Lemma effective_values_stable_witness :
  effectiveScrapeProfile gateway6Saved = effectiveScrapeProfile gateway6
  /\ effectiveIcmp gateway6Saved = effectiveIcmp gateway6.
Proof.
  destruct (effective_values_stable gateway6 gateway6Saved) as (Hprofile & Hicmp).
  split.
  - apply Hprofile. reflexivity.
  - apply Hicmp; reflexivity.
Defined.

Lemma error_shown_only_for_failures_witness :
  statusEl_textContent (step (Rejected ByDelete (lit "HTTP 500")) icmpTab) = lit "HTTP 500"
  /\ statusEl_error (step (Rejected ByDelete (lit "HTTP 500")) icmpTab) = true.
Proof.
  apply (proj1 (error_shown_only_for_failures
                  (Rejected ByDelete (lit "HTTP 500")) icmpTab)
               ByDelete (lit "HTTP 500")).
  reflexivity.
Defined.

Lemma requests_origin_witness :
  exists row it checkbox tdName tdTarget tdScrape tdIcmp,
    DeleteClick 1 true = DeleteClick row true
    /\ tbody icmpTab !! row = Some (TargetRow it checkbox tdName tdTarget tdScrape tdIcmp)
    /\ JNum (Int 8) = id it.
Proof.
  apply (@requests_origin IntNumber (DeleteClick 1 true) icmpTab
           (DELETE_target (id resolver4))).
  left. reflexivity.
Defined.


Lemma each_row_own_checkbox_witness :
  checkboxes (step (EnabledClick 0) icmpTab) !! 0%nat = Some false
  /\ checkboxes (step (EnabledClick 0) icmpTab) !! 1%nat = Some false.
Proof.
  destruct (each_row_own_checkbox blankPage
              [TabClick (lit "icmp"); Rendered ByRefresh [gateway6; resolver4]]
              0 1 gateway6 resolver4 0 1
              (lit "gateway") (lit "2001:db8::1") (lit "5s")
              (lit "count=4 interval=250ms timeout=1000ms size=1200 df=on")
              [] (lit "1.1.1.1") (lit "15s")
              (lit "count=10 interval=1000ms timeout=500ms size=56 df=off"))
    as (_ & state & state' & Hstate & Hstate' & Hflipped & Hkept).
  - split; constructor.
  - reflexivity.
  - reflexivity.
  - discriminate.
  - vm_compute in Hstate, Hstate'.
    injection Hstate as <-. injection Hstate' as <-.
    split; [exact Hflipped | exact Hkept].
Defined.

Lemma api_returns_iff_ok_witness :
  api cannotConvert emptyList = Returns (Json (JsonArr [])).
Proof.
  apply (api_returns_iff_ok cannotConvert emptyList (Json (JsonArr []))).
  exists (Int 200), (Some (lit "application/json")), (inl (lit "[]")), (inl (JsonArr [])).
  split; [reflexivity | left]. split.
  - exists (lit "application/json"). split; [reflexivity |].
    exists [], []. reflexivity.
  - exists (JsonArr []). split; reflexivity.
Defined.

Lemma api_error_message_witness :
  api cannotConvert conflict = Throws (lit "target already exists")
  /\ api cannotConvert badGateway = Throws (lit "HTTP 502").
Proof.
  split.
  - refine (proj1 (proj2 (proj2
              (api_error_message cannotConvert false (Int 409)
                 (Some (lit "application/json; charset=utf-8")) _ _)))
              _ [(lit "error", JsonStr (lit "target already exists"))] _ _ eq_refl eq_refl).
    exists (lit "application/json; charset=utf-8"). split; [reflexivity |].
    exists [], (lit "; charset=utf-8"). reflexivity.
  - refine (proj1 (api_error_message cannotConvert false (Int 502)
                     (Some (lit "text/html")) _ _) _ _ eq_refl).
    intros (v & [= <-] & before & after & E).
    assert (Hin : In 106%N (lit "text/html")).
    { rewrite E. apply in_or_app. right. apply in_or_app. left. vm_compute. tauto. }
    vm_compute in Hin. intuition discriminate.
Defined.

Lemma failure_keeps_page_witness :
  statusEl_textContent (step (afterMutation BySubmit (api cannotConvert conflict)) bracketTyped)
  = lit "target already exists"
  /\ statusEl_error (step (afterMutation BySubmit (api cannotConvert conflict)) bracketTyped)
     = true
  /\ sameButStatus bracketTyped
       (step (afterMutation BySubmit (api cannotConvert conflict)) bracketTyped).
Proof.
  apply (failure_keeps_page cannotConvert BySubmit conflict).
  - left. reflexivity.
  - reflexivity.
Defined.
